(** * hass-aria2c: the Aria2c sensor platform (sensor.py)

    A shallow embedding of [sensor.py]: the JSON-RPC client
    [Aria2cHomeassistant], the sensor facade [Aria2cSensor] and the platform
    entry point [setup_platform], with the properties the specification
    states about them.

    Python objects are modelled by the inductive type [pyval], exceptions by
    records carrying their class and its bases, and every effect of the
    program (network calls, logging, printing, the module-level throttle
    slot, the registered entities) is threaded through an explicit [world]
    by a state-and-exception monad. *)

From Stdlib Require Import ZArith List String Ascii Bool Lia.
From Stdlib Require Import Floats.SpecFloat DecimalString.
From Stdlib Require DecimalPos DecimalZ.
Import ListNotations.

Local Set Warnings "-register-all".
Local Open Scope string_scope.
Local Open Scope Z_scope.

(** ** Python values *)

(** The values the module handles: what [resp.json()] produces out of a JSON
    body ([None], booleans, unbounded integers, binary64 floats, strings,
    lists, string-keyed dictionaries in insertion order), which are also the
    values a sensor holds as its state. Any other object (a module, a class,
    a function) is [PObject], known by its qualified name only. *)
Inductive pyval : Type :=
| PNone
| PBool (b : bool)
| PInt (z : Z)
| PFloat (f : spec_float)
| PStr (s : string)
| PList (l : list pyval)
| PDict (d : list (string * pyval))
| PObject (qualname : string).

(** Binary64: 53 bits of precision, infinities at exponent 1024. *)
Definition prec : Z := 53.
Definition emax : Z := 1024.

(** [bool(v)]: the truth value Python gives [v] in a condition. *)
Definition truthy (v : pyval) : bool :=
  match v with
  | PNone => false
  | PBool b => b
  | PInt z => negb (z =? 0)
  | PFloat (S754_zero _) => false
  | PFloat _ => true
  | PStr s => negb (String.eqb s "")
  | PList l => match l with [] => false | _ => true end
  | PDict d => match d with [] => false | _ => true end
  | PObject _ => true
  end.

(** [type(v).__name__], used in the messages of type errors. *)
Definition type_name (v : pyval) : string :=
  match v with
  | PNone => "NoneType"
  | PBool _ => "bool"
  | PInt _ => "int"
  | PFloat _ => "float"
  | PStr _ => "str"
  | PList _ => "list"
  | PDict _ => "dict"
  | PObject q => q
  end.

(** Dictionary lookup by key (keys of a parsed JSON object are unique). *)
Fixpoint dict_get (k : string) (d : list (string * pyval)) : option pyval :=
  match d with
  | [] => None
  | (k', v) :: d' => if String.eqb k k' then Some v else dict_get k d'
  end.

(** ** Exceptions *)

(** An exception object: the qualified name of its class, the classes it
    inherits from (its method resolution order, itself excluded), its
    message and the extra attributes set on the instance. *)
Record pyexc : Type := mk_exc {
  exc_class : string;
  exc_bases : list string;
  exc_msg : string;
  exc_attrs : list (string * pyval)
}.

Definition builtin_exc (cls : string) (bases : list string) (msg : string) : pyexc :=
  mk_exc cls (bases ++ ["Exception"; "BaseException"; "object"]) msg [].

Definition TypeError (msg : string) : pyexc := builtin_exc "TypeError" [] msg.
Definition ValueError (msg : string) : pyexc := builtin_exc "ValueError" [] msg.
Definition KeyError (key : string) : pyexc := builtin_exc "KeyError" ["LookupError"] key.
Definition NameError (name : string) : pyexc :=
  builtin_exc "NameError" [] ("name '" ++ name ++ "' is not defined").
Definition AttributeError (attr : string) : pyexc :=
  builtin_exc "AttributeError" [] ("object has no attribute '" ++ attr ++ "'").
Definition OverflowError (msg : string) : pyexc :=
  builtin_exc "OverflowError" ["ArithmeticError"] msg.

(** [isinstance(e, cls)]. *)
Definition isinstance (e : pyexc) (cls : string) : bool :=
  String.eqb (exc_class e) cls || existsb (String.eqb cls) (exc_bases e).

(** ** Results of pure operations *)

Inductive outcome (A : Type) : Type :=
| Ret (a : A)
| Raise (e : pyexc).
Arguments Ret {A} a.
Arguments Raise {A} e.

Definition is_raise {A} (o : outcome A) : bool :=
  match o with Ret _ => false | Raise _ => true end.

Definition obind {A B} (o : outcome A) (k : A -> outcome B) : outcome B :=
  match o with
  | Ret a => k a
  | Raise e => Raise e
  end.

(** [e.attr]: an instance attribute, or [AttributeError]. *)
Definition exc_getattr (e : pyexc) (attr : string) : outcome pyval :=
  match dict_get attr (exc_attrs e) with
  | Some v => Ret v
  | None => Raise (AttributeError attr)
  end.

(** ** Subscripting and membership *)

(** [v[k]] for a string key [k]. *)
Definition getitem (v : pyval) (k : string) : outcome pyval :=
  match v with
  | PDict d =>
      match dict_get k d with
      | Some x => Ret x
      | None => Raise (KeyError k)
      end
  | PList _ => Raise (TypeError "list indices must be integers or slices, not str")
  | PStr _ => Raise (TypeError "string indices must be integers")
  | _ => Raise (TypeError ("'" ++ type_name v ++ "' object is not subscriptable"))
  end.

(** Whether [sub] occurs in [s] as a substring. *)
Fixpoint is_substring (sub s : string) : bool :=
  String.prefix sub s ||
  match s with
  | EmptyString => false
  | String _ s' => is_substring sub s'
  end.

(** [k in v] for a string [k]: key membership in a dictionary, element
    membership in a list, substring test in a string; other values are not
    containers. *)
Definition contains (k : string) (v : pyval) : outcome bool :=
  match v with
  | PDict d => Ret (match dict_get k d with Some _ => true | None => false end)
  | PList l =>
      Ret (existsb (fun x => match x with PStr s => String.eqb s k | _ => false end) l)
  | PStr s => Ret (is_substring k s)
  | _ => Raise (TypeError ("argument of type '" ++ type_name v ++ "' is not iterable"))
  end.

(** ** Numeric conversions: [int()], [float()], [round()] *)

Definition ascii_code (c : ascii) : Z := Z.of_N (N_of_ascii c).

(** The value of a decimal digit character. *)
Definition digit_of (c : ascii) : option Z :=
  let n := ascii_code c in
  if (48 <=? n) && (n <=? 57) then Some (n - 48) else None.

(** ASCII white space as [int] and [float] skip it around a numeral: tab,
    line feed, vertical tab, form feed, carriage return and space. *)
Definition is_space (c : ascii) : bool :=
  let n := ascii_code c in
  ((9 <=? n) && (n <=? 13)) || (n =? 32).

Fixpoint lstrip (s : list ascii) : list ascii :=
  match s with
  | c :: r => if is_space c then lstrip r else s
  | [] => []
  end.

Definition strip (s : list ascii) : list ascii := rev (lstrip (rev (lstrip s))).

(** An optional sign: [true] for a leading minus. *)
Definition split_sign (s : list ascii) : bool * list ascii :=
  match s with
  | c :: r =>
      if Ascii.eqb c "-" then (true, r)
      else if Ascii.eqb c "+" then (false, r)
      else (false, s)
  | [] => (false, [])
  end.

(** A run of decimal digits in which single underscores may separate digits
    (PEP 515), read after a first digit: the accumulated value, the number of
    digits read and the rest of the input. [None] when an underscore is not
    followed by a digit. *)
Fixpoint scan_digits (acc : Z) (n : Z) (s : list ascii) : option (Z * Z * list ascii) :=
  match s with
  | [] => Some (acc, n, [])
  | c :: r =>
      match digit_of c with
      | Some d => scan_digits (10 * acc + d) (n + 1) r
      | None =>
          if Ascii.eqb c "_" then
            match r with
            | c' :: r' =>
                match digit_of c' with
                | Some d => scan_digits (10 * acc + d) (n + 1) r'
                | None => None
                end
            | [] => None
            end
          else Some (acc, n, s)
      end
  end.

(** A non-empty digit run continuing the value [acc]. *)
Definition scan_number (acc : Z) (s : list ascii) : option (Z * Z * list ascii) :=
  match s with
  | c :: r =>
      match digit_of c with
      | Some d => scan_digits (10 * acc + d) 1 r
      | None => None
      end
  | [] => None
  end.

(** The integer a string denotes for [int(s)] in base 10. Strings are
    sequences of 8-bit characters here, and the digits are the ASCII ones:
    the decimal digits of other scripts, which [int] reads as well, are not
    represented. *)
Definition int_of_string (s : string) : option Z :=
  let '(neg, body) := split_sign (strip (list_ascii_of_string s)) in
  match scan_number 0 body with
  | Some (v, _, []) => Some (if neg then - v else v)
  | _ => None
  end.

(** Truncation of a finite float towards zero. *)
Definition trunc_float (s : bool) (m : positive) (e : Z) : Z :=
  let a := if 0 <=? e then Zpos m * 2 ^ e else Zpos m / 2 ^ (- e) in
  if s then - a else a.

(** [int(v)]. *)
Definition py_int (v : pyval) : outcome Z :=
  match v with
  | PInt z => Ret z
  | PBool b => Ret (if b then 1 else 0)
  | PFloat (S754_finite s m e) => Ret (trunc_float s m e)
  | PFloat (S754_zero _) => Ret 0
  | PFloat (S754_infinity _) => Raise (OverflowError "cannot convert float infinity to integer")
  | PFloat S754_nan => Raise (ValueError "cannot convert float NaN to integer")
  | PStr s =>
      match int_of_string s with
      | Some z => Ret z
      | None => Raise (ValueError "invalid literal for int() with base 10")
      end
  | _ => Raise (TypeError ("int() argument must be a string, a bytes-like object or a real number, not '"
                           ++ type_name v ++ "'"))
  end.

(** *** Floats *)

(** The binary64 number nearest to the integer [z] (ties to even). *)
Definition float_of_Z (z : Z) : spec_float := binary_normalize prec emax z 0 false.

Definition float_div (x y : spec_float) : spec_float := SFdiv prec emax x y.
Definition float_ltb (x y : spec_float) : bool := SFltb x y.

(** The binary64 number nearest to the decimal [(-1)^neg * m * 10^e10]. *)
Definition float_of_decimal (neg : bool) (m : Z) (e10 : Z) : spec_float :=
  match m with
  | Zpos p =>
      if 0 <=? e10
      then binary_normalize prec emax ((if neg then -1 else 1) * (m * 10 ^ e10)) 0 false
      else float_div (S754_finite neg p 0) (S754_finite false (Z.to_pos (10 ^ (- e10))) 0)
  | _ => S754_zero neg
  end.

Definition lower (c : ascii) : ascii :=
  let n := ascii_code c in
  if (65 <=? n) && (n <=? 90) then ascii_of_N (Z.to_N (n + 32)) else c.

(** The exponent part of a float literal: nothing, or [e] followed by a
    signed digit run that ends the input. *)
Definition scan_exponent (s : list ascii) : option Z :=
  match s with
  | [] => Some 0
  | c :: r =>
      if Ascii.eqb (lower c) "e" then
        let '(neg, body) := split_sign r in
        match scan_number 0 body with
        | Some (x, _, []) => Some (if neg then - x else x)
        | _ => None
        end
      else None
  end.

(** A decimal literal: digits, an optional fraction, an optional exponent;
    the digits of the mantissa as one integer and the decimal exponent. *)
Definition scan_decimal (s : list ascii) : option (Z * Z) :=
  match s with
  | [] => None
  | c :: r =>
      if Ascii.eqb c "." then
        match scan_number 0 r with
        | Some (m, nf, rest) => option_map (fun x => (m, x - nf)) (scan_exponent rest)
        | None => None
        end
      else
        match scan_number 0 s with
        | Some (ip, _, rest) =>
            match rest with
            | c' :: r' =>
                if Ascii.eqb c' "." then
                  match scan_number ip r' with
                  | Some (m, nf, rest') => option_map (fun x => (m, x - nf)) (scan_exponent rest')
                  | None => option_map (fun x => (ip, x)) (scan_exponent r')
                  end
                else option_map (fun x => (ip, x)) (scan_exponent rest)
            | [] => Some (ip, 0)
            end
        | None => None
        end
  end.

(** The float a string denotes for [float(s)]. *)
Definition float_of_string (s : string) : option spec_float :=
  let '(neg, body) := split_sign (strip (list_ascii_of_string s)) in
  let word := string_of_list_ascii (map lower body) in
  if String.eqb word "inf" || String.eqb word "infinity" then Some (S754_infinity neg)
  else if String.eqb word "nan" then Some S754_nan
  else option_map (fun '(m, e10) => float_of_decimal neg m e10) (scan_decimal body).

(** [float(v)]. *)
Definition py_float (v : pyval) : outcome spec_float :=
  match v with
  | PFloat f => Ret f
  | PInt z =>
      match float_of_Z z with
      | S754_infinity _ => Raise (OverflowError "int too large to convert to float")
      | f => Ret f
      end
  | PBool b => Ret (float_of_Z (if b then 1 else 0))
  | PStr s =>
      match float_of_string s with
      | Some f => Ret f
      | None => Raise (ValueError "could not convert string to float")
      end
  | _ => Raise (TypeError ("float() argument must be a string or a real number, not '"
                           ++ type_name v ++ "'"))
  end.

(** [n / d] rounded to the nearest integer, ties to even, for [0 < d]. *)
Definition div_half_even (n d : Z) : Z :=
  let q := n / d in
  match 2 * (n mod d) ?= d with
  | Lt => q
  | Gt => q + 1
  | Eq => if Z.even q then q else q + 1
  end.

(** [round(x, ndigits)] for a float [x] and [0 <= ndigits]: the exact value
    of [x] is rounded to [ndigits] decimal places, ties to even, and the
    decimal obtained is converted back to the nearest float; infinities and
    NaN round to themselves. *)
Definition py_round (x : spec_float) (ndigits : Z) : spec_float :=
  match x with
  | S754_finite s m e =>
      let n := Zpos m * 10 ^ ndigits in
      let q := if 0 <=? e then n * 2 ^ e else div_half_even n (2 ^ (- e)) in
      float_of_decimal s q (- ndigits)
  | _ => x
  end.

Definition f_1024 : spec_float := float_of_Z 1024.
Definition f_0_1 : spec_float := float_of_decimal false 1 (-1).

(** [str(z)] for an integer. *)
Definition string_of_Z (z : Z) : string := NilEmpty.string_of_int (Z.to_int z).

(** The double quote character, as a string. *)
Definition dquote : string :=
  String (Ascii false true false false false true false false) EmptyString.

(** The message of a failed [str + v], for the type name of [v]; the type
    name stands between double quotes. *)
Definition concat_error (tn : string) : string :=
  "can only concatenate str (not " ++ dquote ++ tn ++ dquote ++ ") to str".

(** [s + v] for a string [s]: concatenation when [v] is a string. *)
Definition str_add (s : string) (v : pyval) : outcome pyval :=
  match v with
  | PStr t => Ret (PStr (s ++ t))
  | _ => Raise (TypeError (concat_error (type_name v)))
  end.

(** [v[i]] for a literal index [i]. *)
Definition getindex (v : pyval) (i : nat) : outcome pyval :=
  match v with
  | PList l =>
      match nth_error l i with
      | Some x => Ret x
      | None => Raise (builtin_exc "IndexError" ["LookupError"] "list index out of range")
      end
  | PStr s =>
      match String.get i s with
      | Some c => Ret (PStr (String c EmptyString))
      | None => Raise (builtin_exc "IndexError" ["LookupError"] "string index out of range")
      end
  | PDict d => Raise (builtin_exc "KeyError" ["LookupError"] (string_of_Z (Z.of_nat i)))
  | _ => Raise (TypeError ("'" ++ type_name v ++ "' object is not subscriptable"))
  end.

(** ** Effects: a state-and-exception monad *)

Definition M (S A : Type) : Type := S -> outcome A * S.

Definition ret {S A} (a : A) : M S A := fun s => (Ret a, s).
Definition raise {S A} (e : pyexc) : M S A := fun s => (Raise e, s).
Definition bind {S A B} (c : M S A) (k : A -> M S B) : M S B :=
  fun s =>
    match c s with
    | (Ret a, s') => k a s'
    | (Raise e, s') => (Raise e, s')
    end.
Definition pure {S A} (o : outcome A) : M S A := fun s => (o, s).
Definition gets {S A} (f : S -> A) : M S A := fun s => (Ret (f s), s).
Definition modify {S} (f : S -> S) : M S unit := fun s => (Ret tt, f s).

Notation "x <- c ;; k" := (bind c (fun x => k))
  (at level 61, c at next level, right associativity).
Notation "c ;; k" := (bind c (fun _ => k))
  (at level 61, right associativity).

(** [try: body except cls as e: handler e]: the handler runs, in the state
    the body left, when the body raised an instance of [cls]. *)
Definition try_except {S A} (body : M S A) (cls : string) (handler : pyexc -> M S A) : M S A :=
  fun s =>
    match body s with
    | (Raise e, s') => if isinstance e cls then handler e s' else (Raise e, s')
    | r => r
    end.

(** ** The JSON-RPC client and its environment *)

(** [class Aria2cHomeassistant]: the attributes [__init__] sets. The token is
    [None] when the configuration leaves it out. *)
Record Aria2cHomeassistant : Type := mk_client {
  host : string;
  port : Z;
  token : option string;
  serverUrl : string;
  IDPREFIX : string;
  GET_VER : string;
  GET_STATUS : string
}.

(** [Aria2cHomeassistant.__init__(self, host, port, token=None)]. *)
Definition Aria2cHomeassistant_init (host : string) (port : Z) (token : option string)
  : Aria2cHomeassistant :=
  {| host := host;
     port := port;
     token := token;
     serverUrl := "http://" ++ host ++ ":" ++ string_of_Z port ++ "/jsonrpc";
     IDPREFIX := "pyaria2c";
     GET_VER := "aria2.getVersion";
     GET_STATUS := "aria2.getGlobalStat" |}.

(** [class Aria2cSensor]: the attributes [__init__] sets. The client
    reference is optional because [update] tests it for truth. *)
Record Aria2cSensor : Type := mk_sensor {
  _name : pyval;
  aria2c_client : option Aria2cHomeassistant;
  type : string;
  client_name : string;
  _unit_of_measurement : pyval;
  _state : pyval
}.

(** A POST request: the URL and the payload that [json.dumps] serialises. *)
Record request : Type := mk_request {
  req_url : string;
  req_data : pyval
}.

(** What the daemon side does with a request: the transport fails with an
    exception, or an HTTP response arrives whose body is JSON ([Some]) or
    not ([None]). *)
Inductive net_reply : Type :=
| ConnFail (e : pyexc)
| HttpReply (body : option pyval).

(** The response object [requests.post] returns. *)
Record response : Type := mk_response { resp_body : option pyval }.

(** What the program writes: a call of [_LOGGER.error] with a format and its
    arguments, and a [print] of a formatted string, with the format and the
    arguments kept apart. *)
Inductive event : Type :=
| LogError (fmt : string) (args : list pyval)
| Printed (fmt : string) (args : list pyval).

(** Modelled from the spec: the throttle [homeassistant.util.Throttle], a
    library outside this repository. The spec describes it as a process-wide
    singleton holding the last invocation timestamp of the single throttled
    refresh call, enforcing a minimum spacing between actual network calls
    and returning the cached prior result (or nothing) for calls made
    sooner. The record holds the bound method it wraps ([aria2c_api.getVer],
    that is its [self]), the minimum spacing, the timestamp of the last
    actual invocation and the memoised result. *)
Record Throttle : Type := mk_throttle {
  thr_self : Aria2cHomeassistant;
  thr_min_time : Z;
  thr_last : option Z;
  thr_result : pyval
}.

(** Everything outside the functions: the clock (microseconds, the
    resolution of [timedelta]), the daemon (its answer to the [n]-th network
    call), the network calls made so far, the log and standard output, the
    module global [_THROTTLED_REFRESH] and the entities handed to
    [add_devices]. *)
Record world : Type := mk_world {
  now : Z;
  daemon : nat -> request -> net_reply;
  calls : list request;
  output : list event;
  _THROTTLED_REFRESH : option Throttle;
  devices : list Aria2cSensor
}.

Definition with_calls (w : world) (c : list request) : world :=
  {| now := now w; daemon := daemon w; calls := c; output := output w;
     _THROTTLED_REFRESH := _THROTTLED_REFRESH w; devices := devices w |}.

Definition with_output (w : world) (o : list event) : world :=
  {| now := now w; daemon := daemon w; calls := calls w; output := o;
     _THROTTLED_REFRESH := _THROTTLED_REFRESH w; devices := devices w |}.

Definition with_throttle (w : world) (t : option Throttle) : world :=
  {| now := now w; daemon := daemon w; calls := calls w; output := output w;
     _THROTTLED_REFRESH := t; devices := devices w |}.

Definition with_devices (w : world) (d : list Aria2cSensor) : world :=
  {| now := now w; daemon := daemon w; calls := calls w; output := output w;
     _THROTTLED_REFRESH := _THROTTLED_REFRESH w; devices := d |}.


(** [requests.post(url, data=json.dumps(payload))]: one network call. *)
Definition requests_post (url : string) (payload : pyval) : M world response :=
  fun w =>
    let rq := mk_request url payload in
    let w' := with_calls w (calls w ++ [rq])%list in
    match daemon w (List.length (calls w)) rq with
    | ConnFail e => (Raise e, w')
    | HttpReply body => (Ret (mk_response body), w')
    end.

(** [resp.json()]. *)
Definition resp_json (resp : response) : outcome pyval :=
  match resp_body resp with
  | Some j => Ret j
  | None =>
      Raise (mk_exc "requests.exceptions.JSONDecodeError"
               ["requests.exceptions.InvalidJSONError"; "requests.exceptions.RequestException";
                "json.decoder.JSONDecodeError"; "ValueError"; "OSError";
                "Exception"; "BaseException"; "object"]
               "Expecting value" [])
  end.

Definition emit (ev : event) : M world unit :=
  modify (fun w => with_output w (output w ++ [ev])%list).

Definition token_value (self : Aria2cHomeassistant) : pyval :=
  match token self with
  | Some t => PStr t
  | None => PNone
  end.

(** [Aria2cHomeassistant._genPayload(self, method, uris=None, options=None, cid=None)]. *)
Definition _genPayload (self : Aria2cHomeassistant) (method : string)
    (uris options cid : pyval) : outcome pyval :=
  obind (if truthy cid then str_add (IDPREFIX self) cid else Ret (PStr (IDPREFIX self)))
    (fun cid =>
  obind (str_add "token:" (token_value self))
    (fun tok =>
  let params := [tok] in
  let params := if truthy uris then (params ++ [uris])%list else params in
  let params := if truthy options then (params ++ [options])%list else params in
  Ret (PDict [("jsonrpc", PStr "2.0");
              ("id", cid);
              ("method", PStr method);
              ("params", PList params)]))).

(** The call of [self._genPayload] in [_post], with the list [params] spread
    over the three optional parameters. *)
Definition call_genPayload (self : Aria2cHomeassistant) (action : string)
    (params : list pyval) : outcome pyval :=
  match params with
  | [] => _genPayload self action PNone PNone PNone
  | [u] => _genPayload self action u PNone PNone
  | [u; o] => _genPayload self action u o PNone
  | [u; o; c] => _genPayload self action u o c
  | _ => Raise (TypeError "_genPayload() takes from 2 to 5 positional arguments")
  end.

(** [Aria2cHomeassistant._defaultErrorHandler(code, message)]. *)
Definition _defaultErrorHandler (code message : pyval) : M world pyval :=
  emit (Printed "ERROR: {}, {}" [code; message]) ;;
  ret PNone.

(** [Aria2cHomeassistant._post(self, action, params, onSuc, onFail=None)]. *)
Definition _post (self : Aria2cHomeassistant) (action : string) (params : list pyval)
    (onSuc : response -> M world pyval)
    (onFail : option (pyval -> pyval -> M world pyval)) : M world pyval :=
  let onFail := match onFail with
                | None => _defaultErrorHandler
                | Some f => f
                end in
  payloads <- pure (call_genPayload self action params) ;;
  resp <- requests_post (serverUrl self) payloads ;;
  result <- pure (resp_json resp) ;;
  has_error <- pure (contains "error" result) ;;
  if has_error : bool then
    code <- pure (obind (getitem result "error") (fun e => getitem e "code")) ;;
    message <- pure (obind (getitem result "error") (fun e => getitem e "message")) ;;
    onFail code message
  else
    onSuc resp.

(** [response.json()['result'][field]], the body of the [success] closures. *)
Definition result_field (response : response) (field : string) : outcome pyval :=
  obind (resp_json response) (fun j =>
  obind (getitem j "result") (fun r =>
  getitem r field)).

Definition getVer (self : Aria2cHomeassistant) : M world pyval :=
  let success response := pure (result_field response "version") in
  _post self (GET_VER self) [] success None.

Definition getDownloadSpeed (self : Aria2cHomeassistant) : M world pyval :=
  let success response := pure (result_field response "downloadSpeed") in
  _post self (GET_STATUS self) [] success None.

Definition getUpSpeed (self : Aria2cHomeassistant) : M world pyval :=
  let success response := pure (result_field response "uploadSpeed") in
  _post self (GET_STATUS self) [] success None.

Definition getActive (self : Aria2cHomeassistant) : M world pyval :=
  let success response := pure (result_field response "numActive") in
  _post self (GET_STATUS self) [] success None.

Definition getUnfinishedTasks (self : Aria2cHomeassistant) : M world pyval :=
  let success response :=
    pure (obind (obind (result_field response "numActive") py_int) (fun a =>
          obind (obind (result_field response "numWaiting") py_int) (fun b =>
          Ret (PInt (a + b))))) in
  _post self (GET_STATUS self) [] success None.

(** ** The sensor-type table *)

(** Name resolution at module level: the module namespace, then the
    builtins, else [NameError]. *)
Definition load_name (globals builtins : list (string * pyval)) (x : string) : outcome pyval :=
  match dict_get x globals with
  | Some v => Ret v
  | None =>
      match dict_get x builtins with
      | Some v => Ret v
      | None => Raise (NameError x)
      end
  end.

(** The dictionary display assigned to [SENSOR_TYPES] (lines 27-32), its
    names resolved by [load]: the items are evaluated in order, the name
    [Tasks] once in the first item and once in the last. *)
Definition SENSOR_TYPES_display (load : string -> outcome pyval) : outcome pyval :=
  obind (load "Tasks") (fun tasks_active =>
  obind (load "Tasks") (fun tasks_unfinished =>
  Ret (PDict [("active", PList [PStr "Active"; tasks_active]);
              ("download_speed", PList [PStr "Down Speed"; PStr "MB/s"]);
              ("upload_speed", PList [PStr "Up Speed"; PStr "MB/s"]);
              ("unfinished_tasks", PList [PStr "Unfinished Tasks"; tasks_unfinished])]))).

Definition DEFAULT_NAME : string := "Aria2c".
Definition DEFAULT_PORT : Z := 6800.

(** The module namespace when line 27 runs: the module attributes, the names
    the imports of lines 6-19 bind and the assignments of lines 21-25. *)
Definition module_globals : list (string * pyval) :=
  [("__name__", PStr "sensor");
   ("__doc__", PStr "Support for monitoring the Transmission BitTorrent client API.");
   ("logging", PObject "module");
   ("timedelta", PObject "datetime.timedelta");
   ("vol", PObject "module");
   ("requests", PObject "module");
   ("json", PObject "module");
   ("cv", PObject "module");
   ("PLATFORM_SCHEMA", PObject "voluptuous.Schema");
   ("CONF_HOST", PStr "host");
   ("CONF_TOKEN", PStr "token");
   ("CONF_NAME", PStr "name");
   ("CONF_PORT", PStr "port");
   ("CONF_MONITORED_VARIABLES", PStr "monitored_variables");
   ("STATE_IDLE", PStr "idle");
   ("Entity", PObject "homeassistant.helpers.entity.Entity");
   ("Throttle", PObject "homeassistant.util.Throttle");
   ("_LOGGER", PObject "logging.Logger");
   ("_THROTTLED_REFRESH", PNone);
   ("DEFAULT_NAME", PStr DEFAULT_NAME);
   ("DEFAULT_PORT", PInt DEFAULT_PORT)].

(** The names of the [builtins] module. *)
Definition builtin_names : list string :=
  ["ArithmeticError"; "AssertionError"; "AttributeError"; "BaseException";
   "BlockingIOError"; "BrokenPipeError"; "BufferError"; "BytesWarning";
   "ChildProcessError"; "ConnectionAbortedError"; "ConnectionError";
   "ConnectionRefusedError"; "ConnectionResetError"; "DeprecationWarning";
   "EOFError"; "Ellipsis"; "EnvironmentError"; "Exception"; "False";
   "FileExistsError"; "FileNotFoundError"; "FloatingPointError";
   "FutureWarning"; "GeneratorExit"; "IOError"; "ImportError";
   "ImportWarning"; "IndentationError"; "IndexError"; "InterruptedError";
   "IsADirectoryError"; "KeyError"; "KeyboardInterrupt"; "LookupError";
   "MemoryError"; "ModuleNotFoundError"; "NameError"; "None";
   "NotADirectoryError"; "NotImplemented"; "NotImplementedError"; "OSError";
   "OverflowError"; "PendingDeprecationWarning"; "PermissionError";
   "ProcessLookupError"; "RecursionError"; "ReferenceError";
   "ResourceWarning"; "RuntimeError"; "RuntimeWarning"; "StopAsyncIteration";
   "StopIteration"; "SyntaxError"; "SyntaxWarning"; "SystemError";
   "SystemExit"; "TabError"; "TimeoutError"; "True"; "TypeError";
   "UnboundLocalError"; "UnicodeDecodeError"; "UnicodeEncodeError";
   "UnicodeError"; "UnicodeTranslateError"; "UnicodeWarning"; "UserWarning";
   "ValueError"; "Warning"; "ZeroDivisionError"; "__build_class__";
   "__debug__"; "__doc__"; "__import__"; "__loader__"; "__name__";
   "__package__"; "__spec__"; "abs"; "all"; "any"; "ascii"; "bin"; "bool";
   "breakpoint"; "bytearray"; "bytes"; "callable"; "chr"; "classmethod";
   "compile"; "complex"; "copyright"; "credits"; "delattr"; "dict"; "dir";
   "divmod"; "enumerate"; "eval"; "exec"; "exit"; "filter"; "float";
   "format"; "frozenset"; "getattr"; "globals"; "hasattr"; "hash"; "help";
   "hex"; "id"; "input"; "int"; "isinstance"; "issubclass"; "iter"; "len";
   "license"; "list"; "locals"; "map"; "max"; "memoryview"; "min"; "next";
   "object"; "oct"; "open"; "ord"; "pow"; "print"; "property"; "quit";
   "range"; "repr"; "reversed"; "round"; "set"; "setattr"; "slice";
   "sorted"; "staticmethod"; "str"; "sum"; "super"; "tuple"; "type"; "vars";
   "zip"].

Definition module_builtins : list (string * pyval) :=
  map (fun x => (x, PObject ("builtins." ++ x))) builtin_names.

(** The statement [SENSOR_TYPES = {...}] as the module executes it. *)
Definition SENSOR_TYPES_module : outcome pyval :=
  SENSOR_TYPES_display (load_name module_globals module_builtins).

(** The table the rest of the module reads, for a value [Tasks] of the unit
    of the two counting sensors: the source binds no such name, so the
    functions below take it as a parameter. *)
Definition SENSOR_TYPES (Tasks : pyval) : pyval :=
  PDict [("active", PList [PStr "Active"; Tasks]);
         ("download_speed", PList [PStr "Down Speed"; PStr "MB/s"]);
         ("upload_speed", PList [PStr "Up Speed"; PStr "MB/s"]);
         ("unfinished_tasks", PList [PStr "Unfinished Tasks"; Tasks])].

(** ** The sensor facade *)

(** [Aria2cSensor.__init__(self, sensor_type, aria2c_client, client_name)]. *)
Definition Aria2cSensor_init (Tasks : pyval) (sensor_type : string)
    (aria2c_client : option Aria2cHomeassistant) (client_name : string)
  : outcome Aria2cSensor :=
  obind (obind (getitem (SENSOR_TYPES Tasks) sensor_type) (fun e => getindex e 0)) (fun name =>
  obind (obind (getitem (SENSOR_TYPES Tasks) sensor_type) (fun e => getindex e 1)) (fun unit =>
  Ret {| _name := name;
         aria2c_client := aria2c_client;
         type := sensor_type;
         client_name := client_name;
         _unit_of_measurement := unit;
         _state := PNone |})).

(** The properties [state] and [unit_of_measurement]. *)
Definition state (self : Aria2cSensor) : pyval := _state self.
Definition unit_of_measurement (self : Aria2cSensor) : pyval := _unit_of_measurement self.

(** The assignment [self._state = v]. *)
Definition set_state (self : Aria2cSensor) (v : pyval) : Aria2cSensor :=
  {| _name := _name self;
     aria2c_client := aria2c_client self;
     type := type self;
     client_name := client_name self;
     _unit_of_measurement := _unit_of_measurement self;
     _state := v |}.

(** [timedelta(seconds=n)], in microseconds. *)
Definition timedelta_seconds (n : Z) : Z := n * 1000000.

(** Modelled from the spec: [Throttle(min_time)(method)], the construction of
    the throttle around a bound method of the client, absent from the
    repository: no invocation yet, nothing memoised. *)
Definition Throttle_wrap (min_time : Z) (method_self : Aria2cHomeassistant) : Throttle :=
  mk_throttle method_self min_time None PNone.

(** Modelled from the spec: the call of the throttled refresh, absent from
    the repository. A call made sooner than the minimum spacing after the
    last actual invocation makes no network call and returns the memoised
    prior result (nothing, that is [None], when there is none); any other
    call records its time as the last invocation timestamp, invokes the
    wrapped [getVer] and memoises what it returns. *)
Definition throttled_call (thr : Throttle) : M world pyval :=
  fun w =>
    let too_soon := match thr_last thr with
                    | Some t0 => now w - t0 <? thr_min_time thr
                    | None => false
                    end in
    if too_soon then (Ret (thr_result thr), w)
    else
      let stamped r := mk_throttle (thr_self thr) (thr_min_time thr) (Some (now w)) r in
      match getVer (thr_self thr) (with_throttle w (Some (stamped (thr_result thr)))) with
      | (Ret r, w') => (Ret r, with_throttle w' (Some (stamped r)))
      | (Raise e, w') => (Raise e, w')
      end.

(** [Aria2cSensor.refresh_aria2c_data(self)]. *)
Definition refresh_aria2c_data (self : Aria2cSensor) : M world unit :=
  throttled <- gets _THROTTLED_REFRESH ;;
  match throttled with
  | Some thr =>
      try_except
        (throttled_call thr ;; ret tt)
        "ConnectionError"
        (fun _ => emit (LogError "Connection to Aria2c API failed" []))
  | None => ret tt
  end.

(** A method of the sensor runs on the sensor and the world. *)
Definition in_world {A} (c : M world A) : M (Aria2cSensor * world) A :=
  fun sw =>
    let '(r, w') := c (snd sw) in (r, (fst sw, w')).

Definition assign_state (v : pyval) : M (Aria2cSensor * world) unit :=
  modify (fun sw => (set_state (fst sw) v, snd sw)).

(** The state a speed sensor takes from the raw value of the daemon:
    [float(raw) / 1024 / 1024], rounded to 2 places below 0.1 and to 1 place
    otherwise. *)
Definition speed_state (raw : pyval) : outcome pyval :=
  obind (py_float raw) (fun mb_spd =>
  let mb_spd := float_div (float_div mb_spd f_1024) f_1024 in
  Ret (PFloat (py_round mb_spd (if float_ltb mb_spd f_0_1 then 2 else 1)))).

(** The second statement of [update]: the block under
    [if self.aria2c_client:], which fetches the metric of the sensor type
    and assigns the state. *)
Definition update_metric (self : Aria2cSensor) : M (Aria2cSensor * world) unit :=
  match aria2c_client self with
  | Some client =>
      if String.eqb (type self) "download_speed" then
        raw <- in_world (getDownloadSpeed client) ;;
        st <- pure (speed_state raw) ;;
        assign_state st
      else if String.eqb (type self) "upload_speed" then
        raw <- in_world (getUpSpeed client) ;;
        st <- pure (speed_state raw) ;;
        assign_state st
      else if String.eqb (type self) "active" then
        raw <- in_world (getActive client) ;;
        n <- pure (py_int raw) ;;
        assign_state (PInt n)
      else if String.eqb (type self) "unfinished_tasks" then
        raw <- in_world (getUnfinishedTasks client) ;;
        n <- pure (py_int raw) ;;
        assign_state (PInt n)
      else ret tt
  | None => ret tt
  end.

(** [Aria2cSensor.update(self)]. *)
Definition update : M (Aria2cSensor * world) unit :=
  self <- gets fst ;;
  in_world (refresh_aria2c_data self) ;;
  update_metric self.

(** ** Platform setup *)

(** The validated configuration [setup_platform] reads, one field per key. *)
Record Config : Type := mk_config {
  CONF_NAME : string;
  CONF_HOST : string;
  CONF_PORT : Z;
  CONF_TOKEN : option string;
  CONF_MONITORED_VARIABLES : list string
}.

(** The loop that fills [dev]. *)
Fixpoint make_devices (Tasks : pyval) (variables : list string)
    (aria2c_api : Aria2cHomeassistant) (name : string) : outcome (list Aria2cSensor) :=
  match variables with
  | [] => Ret []
  | variable :: rest =>
      obind (Aria2cSensor_init Tasks variable (Some aria2c_api) name) (fun s =>
      obind (make_devices Tasks rest aria2c_api name) (fun dev =>
      Ret (s :: dev)))
  end.

(** [add_devices(dev)], the callback of the host framework. *)
Definition add_devices (dev : list Aria2cSensor) : M world unit :=
  modify (fun w => with_devices w (devices w ++ dev)%list).

(** [setup_platform(hass, config, add_devices, discovery_info=None)]. The
    result is [False] from the handler and [None] at the end of the body. *)
Definition setup_platform (Tasks : pyval) (config : Config) : M world pyval :=
  let name := CONF_NAME config in
  let host := CONF_HOST config in
  let port := CONF_PORT config in
  let token := CONF_TOKEN config in
  probe <- try_except
             (let aria2c_api := Aria2cHomeassistant_init host port token in
              getVer aria2c_api ;;
              ret (inl aria2c_api))
             "ConnectionError"
             (fun error =>
                original <- pure (exc_getattr error "original") ;;
                emit (LogError "Connection to Aria2c API failed on %s:%s with message %s"
                        [PStr host; PInt port; original]) ;;
                ret (inr (PBool false))) ;;
  match probe with
  | inr failure => ret failure
  | inl aria2c_api =>
      modify (fun w => with_throttle w
                         (Some (Throttle_wrap (timedelta_seconds 1) aria2c_api))) ;;
      dev <- pure (make_devices Tasks (CONF_MONITORED_VARIABLES config) aria2c_api name) ;;
      add_devices dev ;;
      ret PNone
  end.

(** ** Vocabulary of the properties *)

(** The reply the daemon gives to the call [_post self action params] made in
    the world [w]; [None] when the request cannot be built, in which case no
    call is made. *)
Definition next_reply (w : world) (self : Aria2cHomeassistant) (action : string)
    (params : list pyval) : option net_reply :=
  match call_genPayload self action params with
  | Ret p => Some (daemon w (List.length (calls w)) (mk_request (serverUrl self) p))
  | Raise _ => None
  end.

(** A call fails when the transport fails or when the parsed response
    contains an ["error"] field. *)
Definition reply_fails (r : net_reply) : bool :=
  match r with
  | ConnFail _ => true
  | HttpReply (Some j) =>
      match contains "error" j with
      | Ret true => true
      | _ => false
      end
  | HttpReply None => false
  end.

(** The failure handler [_post] uses: the one given, else the default. *)
Definition default_or (onFail : option (pyval -> pyval -> M world pyval))
  : pyval -> pyval -> M world pyval :=
  match onFail with
  | None => _defaultErrorHandler
  | Some f => f
  end.

(** The world once one more request has been sent. *)
Definition sent (w : world) (rq : request) : world :=
  with_calls w (calls w ++ [rq])%list.

(** The four sensor types of the table. *)
Definition known_type (t : string) : bool :=
  String.eqb t "download_speed" || String.eqb t "upload_speed" ||
  String.eqb t "active" || String.eqb t "unfinished_tasks".

(** A non-negative integer as the daemon sends it: a decimal string, or a
    JSON number. *)
Definition int_repr (n : Z) (v : pyval) : Prop :=
  v = PStr (string_of_Z n) \/ v = PInt n.

(** A world in which nothing has happened yet, for a given daemon. *)
Definition fresh_world (d : nat -> request -> net_reply) : world :=
  mk_world 0 d [] [] None [].

(** The exception [requests.post] raises when the connection cannot be
    made: [requests.exceptions.ConnectionError], which derives from
    [RequestException] and [OSError], not from the builtin
    [ConnectionError]; it has the attributes [request] and [response]. *)
Definition requests_ConnectionError (msg : string) : pyexc :=
  mk_exc "requests.exceptions.ConnectionError"
    ["requests.exceptions.RequestException"; "OSError"; "Exception"; "BaseException"; "object"]
    msg
    [("request", PObject "requests.models.PreparedRequest"); ("response", PNone)].

(** Decimal digits, the characters of a decimal numeral and the value of a
    numeral read from its most significant digit. *)
Definition is_digit (c : ascii) : bool :=
  match digit_of c with
  | Some _ => true
  | None => false
  end.

Definition uint_chars (d : Decimal.uint) : list ascii :=
  list_ascii_of_string (NilEmpty.string_of_uint d).

Fixpoint uint_value (acc : Z) (d : Decimal.uint) : Z :=
  match d with
  | Decimal.Nil => acc
  | Decimal.D0 d => uint_value (10 * acc + 0) d
  | Decimal.D1 d => uint_value (10 * acc + 1) d
  | Decimal.D2 d => uint_value (10 * acc + 2) d
  | Decimal.D3 d => uint_value (10 * acc + 3) d
  | Decimal.D4 d => uint_value (10 * acc + 4) d
  | Decimal.D5 d => uint_value (10 * acc + 5) d
  | Decimal.D6 d => uint_value (10 * acc + 6) d
  | Decimal.D7 d => uint_value (10 * acc + 7) d
  | Decimal.D8 d => uint_value (10 * acc + 8) d
  | Decimal.D9 d => uint_value (10 * acc + 9) d
  end.

(** What a method of the sensor leaves alone: the whole sensor, every
    attribute but the state, or the whole sensor whenever it raises. *)
Definition keeps_sensor {A} (c : M (Aria2cSensor * world) A) : Prop :=
  forall sw, fst (snd (c sw)) = fst sw.

Definition same_identity (s s' : Aria2cSensor) : Prop :=
  _name s' = _name s /\ type s' = type s /\
  _unit_of_measurement s' = _unit_of_measurement s /\
  aria2c_client s' = aria2c_client s /\ client_name s' = client_name s.

Definition keeps_identity {A} (c : M (Aria2cSensor * world) A) : Prop :=
  forall sw, same_identity (fst sw) (fst (snd (c sw))).

Definition raise_keeps_sensor {A} (c : M (Aria2cSensor * world) A) : Prop :=
  forall sw, is_raise (fst (c sw)) = true -> fst (snd (c sw)) = fst sw.

(** The request of the liveness probe [getVer] for a client with a token. *)
Definition version_request (self : Aria2cHomeassistant) (tok : string) : request :=
  mk_request (serverUrl self)
    (PDict [("jsonrpc", PStr "2.0");
            ("id", PStr (IDPREFIX self));
            ("method", PStr (GET_VER self));
            ("params", PList [PStr ("token:" ++ tok)])]).

(** Whether a call of the throttle at the time of [w] is let through. *)
Definition due (thr : Throttle) (w : world) : bool :=
  match thr_last thr with
  | Some t0 => negb (now w - t0 <? thr_min_time thr)
  | None => true
  end.

(** The second half of [binary_round_aux]: the rounded mantissa is brought
    back into the format and the exponent checked against the largest one. *)
Definition finish (sx : bool) (mx ex : Z) : spec_float :=
  let '(mrs, e) := shr_fexp prec emax mx ex loc_Exact in
  match shr_m mrs with
  | Z0 => S754_zero sx
  | Zpos m => if e <=? emax - prec then S754_finite sx m e else S754_infinity sx
  | _ => S754_nan
  end.

(** The state of a speed sensor as the specification words it, for a raw
    value [v] in bytes per second: [v / 1048576] rounded to 2 places when it
    is below 0.1 and to 1 place otherwise. *)
Definition speed_spec (v : Z) : spec_float :=
  let mb := float_div (float_of_Z v) (float_of_Z 1048576) in
  if float_ltb mb f_0_1 then py_round mb 2 else py_round mb 1.

(** The operations of the client, each with the attribute that holds its
    method name; and those that return one member of the result as it is,
    with the name of that member. *)
Definition client_ops
  : list ((Aria2cHomeassistant -> M world pyval) * (Aria2cHomeassistant -> string)) :=
  [(getVer, GET_VER); (getDownloadSpeed, GET_STATUS); (getUpSpeed, GET_STATUS);
   (getActive, GET_STATUS); (getUnfinishedTasks, GET_STATUS)].

Definition field_ops
  : list ((Aria2cHomeassistant -> M world pyval) * (Aria2cHomeassistant -> string) * string) :=
  [(getVer, GET_VER, "version"); (getDownloadSpeed, GET_STATUS, "downloadSpeed");
   (getUpSpeed, GET_STATUS, "uploadSpeed"); (getActive, GET_STATUS, "numActive")].

(** The request a client with a token sends for a method without
    parameters. *)
Definition plain_request (self : Aria2cHomeassistant) (action tok : string) : request :=
  mk_request (serverUrl self)
    (PDict [("jsonrpc", PStr "2.0");
            ("id", PStr (IDPREFIX self));
            ("method", PStr action);
            ("params", PList [PStr ("token:" ++ tok)])]).

(** [w'] continues [w] with at most [n] more network calls: the calls and
    the output of [w] are still there, in front; the clock, the daemon and
    the registered entities are those of [w]. *)
Definition grows (n : nat) (w w' : world) : Prop :=
  now w' = now w /\ daemon w' = daemon w /\ devices w' = devices w /\
  (exists l, calls w' = (calls w ++ l)%list /\ (List.length l <= n)%nat) /\
  (exists o, output w' = (output w ++ o)%list).

(** The property [name] of a sensor: the client name and the label, each
    formatted by an empty replacement field, that is by [str]. The builtin
    [str] is a parameter; on a string it is the identity. *)
Section NameProperty.
Variable py_str : pyval -> string.

Definition name (self : Aria2cSensor) : string :=
  py_str (PStr (client_name self)) ++ " " ++ py_str (_name self).
End NameProperty.

(** * Properties *)

(** ** How a call of [_post] runs *)

(** When the request cannot be built, [_post] raises before any call. *)
Lemma post_no_request self action params onSuc onFail w e :
  call_genPayload self action params = Raise e ->
  _post self action params onSuc onFail w = (Raise e, w).
Proof.
  intros H. unfold _post, bind, pure. now rewrite H.
Qed.

(** When the request is built, [_post] sends it and dispatches on the reply. *)
Lemma post_request self action params onSuc onFail w p :
  call_genPayload self action params = Ret p ->
  _post self action params onSuc onFail w =
    let rq := mk_request (serverUrl self) p in
    match daemon w (List.length (calls w)) rq with
    | ConnFail e => (Raise e, sent w rq)
    | HttpReply body =>
        match resp_json (mk_response body) with
        | Raise e => (Raise e, sent w rq)
        | Ret result =>
            match contains "error" result with
            | Raise e => (Raise e, sent w rq)
            | Ret true =>
                match obind (getitem result "error") (fun e => getitem e "code") with
                | Raise e => (Raise e, sent w rq)
                | Ret code =>
                    match obind (getitem result "error") (fun e => getitem e "message") with
                    | Raise e => (Raise e, sent w rq)
                    | Ret message => default_or onFail code message (sent w rq)
                    end
                end
            | Ret false => onSuc (mk_response body) (sent w rq)
            end
        end
    end.
Proof.
  intros H. unfold _post, bind, pure, requests_post, sent. rewrite H. cbv zeta.
  destruct (daemon w (List.length (calls w)) _) as [e | body]; [reflexivity |].
  destruct (resp_json _) as [result | e]; [| reflexivity].
  destruct (contains "error" result) as [[|] | e]; reflexivity.
Qed.

(** With a token, a call without parameters builds the request of the wire
    protocol. *)
Lemma genPayload_token self action t :
  token self = Some t ->
  call_genPayload self action [] =
    Ret (PDict [("jsonrpc", PStr "2.0");
                ("id", PStr (IDPREFIX self));
                ("method", PStr action);
                ("params", PList [PStr ("token:" ++ t)])]).
Proof.
  intros H. unfold call_genPayload, _genPayload, token_value. now rewrite H.
Qed.

(** With a token, [_genPayload] never fails when the call identifier is
    absent or a string, and the token comes first in the parameter list. *)
Lemma genPayload_shape self method uris options cid t :
  token self = Some t ->
  (cid = PNone \/ exists c, cid = PStr c) ->
  exists id rest,
    _genPayload self method uris options cid =
      Ret (PDict [("jsonrpc", PStr "2.0");
                  ("id", PStr id);
                  ("method", PStr method);
                  ("params", PList (PStr ("token:" ++ t) :: rest))]).
Proof.
  intros Ht Hc. unfold _genPayload, token_value. rewrite Ht.
  assert (exists id, (if truthy cid then str_add (IDPREFIX self) cid
                      else Ret (PStr (IDPREFIX self))) = Ret (PStr id)) as [id ->].
  { destruct Hc as [-> | [c ->]]; simpl; [eauto |].
    destruct (negb (c =? ""))%string; eauto. }
  exists id. simpl.
  destruct (truthy uris), (truthy options); simpl; eauto.
Qed.

(** Without a token no request is built: [_genPayload] raises whatever its
    other arguments are. *)
Lemma genPayload_no_token self method uris options cid :
  token self = None ->
  is_raise (_genPayload self method uris options cid) = true.
Proof.
  intros H. unfold _genPayload, token_value. rewrite H.
  destruct (if truthy cid then _ else _); reflexivity.
Qed.

(** ** C7: the request body *)

(** C7 (the code departs from it). The claim: for every configuration, also
    one that omits the optional token, every RPC call builds without failing
    a request body whose parameter list starts with the token. In the code a
    client built from a configuration without token raises [TypeError] in
    [_genPayload], at the concatenation of ["token:"] and [None]: the
    liveness probe [getVer] fails before any request is sent. *)
Theorem genPayload_fails_without_token :
  let api := Aria2cHomeassistant_init "localhost" DEFAULT_PORT None in
  let w := fresh_world (fun _ _ => HttpReply None) in
  _genPayload api (GET_VER api) PNone PNone PNone
    = Raise (TypeError (concat_error "NoneType"))
  /\ getVer api w
    = (Raise (TypeError (concat_error "NoneType")), w)
  /\ calls (snd (getVer api w)) = [].
Proof.
  repeat split.
Qed.

(** ** C8: the sensor-type table *)

(** The display evaluates to the table as soon as the name [Tasks] resolves. *)
Lemma SENSOR_TYPES_display_bound (load : string -> outcome pyval) (u : pyval) :
  load "Tasks" = Ret u ->
  SENSOR_TYPES_display load = Ret (SENSOR_TYPES u).
Proof.
  intros H. unfold SENSOR_TYPES_display. now rewrite H.
Qed.

(** C8 (the code departs from it). The claim: evaluating the sensor-type
    table succeeds and gives every key a defined label and unit. In the code
    the unit of ['active'] and ['unfinished_tasks'] is the bare name [Tasks],
    which neither the module nor the builtins bind: the assignment raises
    [NameError] and no table exists. *)
Theorem SENSOR_TYPES_raises_NameError :
  dict_get "Tasks" module_globals = None
  /\ dict_get "Tasks" module_builtins = None
  /\ SENSOR_TYPES_module = Raise (NameError "Tasks").
Proof.
  repeat split.
Qed.

(** ** Reading a number back from its decimal string *)

(** What the parsers need to know about a digit: it is not white space, not
    a sign, not a point, not a letter. *)
Lemma digit_char_facts (c : ascii) :
  is_digit c = true ->
  is_space c = false /\ Ascii.eqb c "-" = false /\ Ascii.eqb c "+" = false /\
  Ascii.eqb c "." = false /\ lower c = c /\
  Ascii.eqb c "i" = false /\ Ascii.eqb c "n" = false.
Proof.
  destruct c as [b0 b1 b2 b3 b4 b5 b6 b7].
  destruct b0, b1, b2, b3, b4, b5, b6, b7;
    (intros H; vm_compute in H; try discriminate H; vm_compute; repeat split).
Qed.

Lemma uint_chars_digits (d : Decimal.uint) :
  Forall (fun c => is_digit c = true) (uint_chars d).
Proof.
  induction d; constructor; auto.
Qed.

Lemma lstrip_digits (l : list ascii) :
  Forall (fun c => is_digit c = true) l -> lstrip l = l.
Proof.
  intros [| c r Hc _]; [reflexivity |].
  simpl. now destruct (digit_char_facts c Hc) as (-> & _).
Qed.

Lemma strip_digits (l : list ascii) :
  Forall (fun c => is_digit c = true) l -> strip l = l.
Proof.
  intros H. unfold strip. rewrite (lstrip_digits l H).
  rewrite lstrip_digits by now apply Forall_rev.
  apply rev_involutive.
Qed.

Lemma split_sign_digits (l : list ascii) :
  Forall (fun c => is_digit c = true) l -> split_sign l = (false, l).
Proof.
  intros [| c r Hc _]; [reflexivity |].
  simpl. now destruct (digit_char_facts c Hc) as (_ & -> & -> & _).
Qed.

(** Scanning the digits of [d] continues the accumulated value in base 10. *)
Lemma scan_digits_uint (d : Decimal.uint) :
  forall acc n,
    scan_digits acc n (uint_chars d) =
      Some (uint_value acc d, n + Z.of_N (DecimalPos.Unsigned.usize d), []).
Proof.
  induction d; intros acc n;
    [ simpl; now rewrite Z.add_0_r | .. ];
    (unfold uint_chars in *;
     cbn [NilEmpty.string_of_uint list_ascii_of_string scan_digits];
     match goal with
     | |- context [digit_of ?c] =>
         let v := eval vm_compute in (digit_of c) in
         change (digit_of c) with v
     end;
     cbv iota; rewrite IHd;
     cbn [uint_value DecimalPos.Unsigned.usize];
     rewrite N2Z.inj_succ; do 3 f_equal; lia).
Qed.

Lemma uint_value_of_lu (d : Decimal.uint) :
  forall acc,
    uint_value acc d =
      acc * 10 ^ Z.of_N (DecimalPos.Unsigned.usize d)
      + Z.of_N (DecimalPos.Unsigned.of_lu (Decimal.rev d)).
Proof.
  induction d; intros acc;
    [ cbn [uint_value DecimalPos.Unsigned.usize DecimalPos.Unsigned.of_lu Decimal.rev Decimal.revapp Z.of_N]; rewrite Z.pow_0_r; lia | .. ];
    (cbn [uint_value DecimalPos.Unsigned.usize]; rewrite IHd;
     unfold Decimal.rev; cbn [Decimal.revapp];
     rewrite (DecimalPos.Unsigned.of_lu_revapp d (_ Decimal.Nil));
     cbn [DecimalPos.Unsigned.of_lu];
     rewrite N2Z.inj_add, N2Z.inj_mul, N2Z.inj_pow, N2Z.inj_succ, Z.pow_succ_r
       by apply N2Z.is_nonneg;
     unfold Decimal.rev; simpl Z.of_N; ring).
Qed.

Lemma scan_number_uint (d : Decimal.uint) (acc : Z) :
  d <> Decimal.Nil ->
  scan_number acc (uint_chars d) =
    Some (uint_value acc d, Z.of_N (DecimalPos.Unsigned.usize d), []).
Proof.
  intros Hd.
  destruct d; [easy | ..];
    (unfold uint_chars; cbn [NilEmpty.string_of_uint list_ascii_of_string scan_number];
     match goal with
     | |- context [digit_of ?c] =>
         let v := eval vm_compute in (digit_of c) in
         change (digit_of c) with v
     end;
     cbv iota; fold (uint_chars d); rewrite scan_digits_uint;
     cbn [uint_value DecimalPos.Unsigned.usize];
     rewrite N2Z.inj_succ; do 3 f_equal; lia).
Qed.

(** The numeral of a non-negative integer: its characters are digits, there
    is at least one, and they read back as the integer. *)
Lemma decimal_of_nonneg (z : Z) :
  0 <= z ->
  exists d, string_of_Z z = NilEmpty.string_of_uint d /\ d <> Decimal.Nil /\
            uint_value 0 d = z.
Proof.
  intros Hz. destruct z as [| p | p]; [| | lia].
  - exists (Decimal.D0 Decimal.Nil). repeat split. easy.
  - exists (Pos.to_uint p). split; [reflexivity |].
    split; [apply DecimalPos.Unsigned.to_uint_nonnil |].
    rewrite uint_value_of_lu, <- DecimalPos.Unsigned.of_uint_alt,
      DecimalPos.Unsigned.of_to.
    reflexivity.
Qed.

(** [int] reads the decimal string of a non-negative integer back. *)
Lemma int_of_string_decimal (z : Z) :
  0 <= z -> int_of_string (string_of_Z z) = Some z.
Proof.
  intros Hz. destruct (decimal_of_nonneg z Hz) as (d & -> & Hd & Hv).
  unfold int_of_string. fold (uint_chars d).
  rewrite strip_digits, split_sign_digits by apply uint_chars_digits.
  now rewrite scan_number_uint, Hv.
Qed.

Lemma py_int_repr (n : Z) (v : pyval) :
  0 <= n -> int_repr n v -> py_int v = Ret n.
Proof.
  intros Hn [-> | ->]; [| reflexivity].
  simpl. now rewrite int_of_string_decimal.
Qed.

(** [float] reads the decimal string of a non-negative integer as the float
    nearest to the integer. *)
Lemma float_of_string_decimal (z : Z) :
  0 <= z -> float_of_string (string_of_Z z) = Some (float_of_Z z).
Proof.
  intros Hz. destruct (decimal_of_nonneg z Hz) as (d & -> & Hd & Hv).
  unfold float_of_string. fold (uint_chars d).
  rewrite strip_digits, split_sign_digits by apply uint_chars_digits.
  pose proof (uint_chars_digits d) as Hall.
  pose proof (scan_number_uint d 0 Hd) as Hscan.
  destruct (uint_chars d) as [| c r] eqn:Hc; [now destruct d |].
  pose proof (Forall_inv Hall) as Hdig. cbv beta in Hdig.
  destruct (digit_char_facts c Hdig) as (_ & _ & _ & Hpt & Hlow & Hi & Hn).
  cbn [map string_of_list_ascii String.eqb]. rewrite Hlow, Hi, Hn. cbn [orb].
  unfold scan_decimal. rewrite Hpt, Hscan, Hv. cbn [option_map].
  destruct z as [| p | p]; [reflexivity | | lia].
  unfold float_of_decimal, float_of_Z. cbn [Z.leb Z.compare].
  change (10 ^ 0) with 1. now rewrite Z.mul_1_r, Z.mul_1_l.
Qed.

(** ** C3: a response with an ["error"] field *)

(** C3. For every RPC call whose parsed response carries an ["error"]
    field, which in the wire protocol is an error object with a ["code"] and
    a ["message"], the call raises nothing: the default failure handler
    receives the code and the message of the error, prints them, and the call
    returns [None]; the success handler is not run. *)
Theorem post_rpc_error_returns_None
    self action params (onSuc : response -> M world pyval) w p d err code message :
  call_genPayload self action params = Ret p ->
  daemon w (List.length (calls w)) (mk_request (serverUrl self) p)
    = HttpReply (Some (PDict d)) ->
  dict_get "error" d = Some (PDict err) ->
  dict_get "code" err = Some code ->
  dict_get "message" err = Some message ->
  _post self action params onSuc None w =
    (Ret PNone,
     with_output (sent w (mk_request (serverUrl self) p))
       (output w ++ [Printed "ERROR: {}, {}" [code; message]])%list).
Proof.
  intros Hp Hd He Hc Hm.
  rewrite (post_request _ _ _ _ _ _ _ Hp). cbv zeta. rewrite Hd.
  cbn [resp_json resp_body contains getitem obind]. rewrite He.
  cbn [obind getitem]. rewrite Hc, Hm. reflexivity.
Qed.

Lemma post_rpc_error_returns_None_witness :
  let api := Aria2cHomeassistant_init "localhost" DEFAULT_PORT (Some "secret") in
  let err := [("code", PInt 1); ("message", PStr "Unauthorized")] in
  let w := fresh_world (fun _ _ => HttpReply (Some (PDict [("id", PStr "pyaria2c");
                                                             ("error", PDict err)]))) in
  fst (_post api (GET_STATUS api) [] (fun _ => raise (ValueError "unreachable")) None w)
    = Ret PNone.
Proof.
  intros api err w.
  rewrite (post_rpc_error_returns_None api (GET_STATUS api) [] _ w
             (PDict [("jsonrpc", PStr "2.0"); ("id", PStr "pyaria2c");
                     ("method", PStr "aria2.getGlobalStat");
                     ("params", PList [PStr "token:secret"])])
             [("id", PStr "pyaria2c"); ("error", PDict err)] err
             (PInt 1) (PStr "Unauthorized"));
    reflexivity.
Defined.

(** ** C2: the unfinished-task count *)

(** C2. For all non-negative integers [a] and [b] that the global-stat
    response carries as [numActive] and [numWaiting], each as a decimal
    string or as a number, [getUnfinishedTasks] returns exactly [a + b]. *)
Theorem getUnfinishedTasks_is_sum self w p d res (a b : Z) (ra rb : pyval) :
  call_genPayload self (GET_STATUS self) [] = Ret p ->
  daemon w (List.length (calls w)) (mk_request (serverUrl self) p)
    = HttpReply (Some (PDict d)) ->
  dict_get "error" d = None ->
  dict_get "result" d = Some (PDict res) ->
  dict_get "numActive" res = Some ra ->
  dict_get "numWaiting" res = Some rb ->
  0 <= a -> 0 <= b ->
  int_repr a ra -> int_repr b rb ->
  getUnfinishedTasks self w
    = (Ret (PInt (a + b)), sent w (mk_request (serverUrl self) p)).
Proof.
  intros Hp Hd He Hr Ha Hb Hna Hnb Hra Hrb.
  unfold getUnfinishedTasks.
  rewrite (post_request _ _ _ _ _ _ _ Hp). cbv zeta. rewrite Hd.
  cbn [resp_json resp_body contains]. rewrite He.
  unfold pure, result_field.
  cbn [resp_json resp_body obind getitem]. rewrite Hr.
  cbn [obind getitem]. rewrite Ha, Hb.
  unfold obind at 2. rewrite (py_int_repr a ra Hna Hra). cbn [obind].
  now rewrite (py_int_repr b rb Hnb Hrb).
Qed.

Lemma getUnfinishedTasks_is_sum_witness :
  let api := Aria2cHomeassistant_init "localhost" DEFAULT_PORT (Some "secret") in
  let res := [("numActive", PStr "3"); ("numWaiting", PInt 4)] in
  let w := fresh_world (fun _ _ => HttpReply (Some (PDict [("result", PDict res)]))) in
  fst (getUnfinishedTasks api w) = Ret (PInt 7).
Proof.
  intros api res w.
  rewrite (getUnfinishedTasks_is_sum api w
             (PDict [("jsonrpc", PStr "2.0"); ("id", PStr "pyaria2c");
                     ("method", PStr "aria2.getGlobalStat");
                     ("params", PList [PStr "token:secret"])])
             [("result", PDict res)] res 3 4 (PStr "3") (PInt 4));
    try reflexivity; try lia; [left | right]; reflexivity.
Defined.

(** ** C10: an uninitialised throttle slot *)

(** C10. While the module-level slot [_THROTTLED_REFRESH] is [None], the
    refresh step of any sensor does nothing: it returns normally and leaves
    the world as it was, so no network call is made, and the update is
    exactly the metric fetch that follows. *)
Theorem refresh_without_throttle (self : Aria2cSensor) (w : world) :
  _THROTTLED_REFRESH w = None ->
  refresh_aria2c_data self w = (Ret tt, w)
  /\ calls (snd (refresh_aria2c_data self w)) = calls w
  /\ update (self, w) = update_metric self (self, w).
Proof.
  intros H.
  assert (refresh_aria2c_data self w = (Ret tt, w)) as Hr.
  { unfold refresh_aria2c_data, bind, gets. now rewrite H. }
  repeat split; [exact Hr | now rewrite Hr |].
  unfold update, bind, gets, in_world. cbn [fst snd]. now rewrite Hr.
Qed.

Lemma refresh_without_throttle_witness :
  let api := Aria2cHomeassistant_init "localhost" DEFAULT_PORT (Some "secret") in
  let s := mk_sensor (PStr "Active") (Some api) "active" "Aria2c" (PStr "Tasks") PNone in
  let w := fresh_world (fun _ _ => HttpReply None) in
  refresh_aria2c_data s w = (Ret tt, w).
Proof.
  intros api s w.
  exact (proj1 (refresh_without_throttle s w eq_refl)).
Defined.

(** ** What [update] leaves alone *)

Create HintDb frame.

Lemma keeps_sensor_ret {A} (a : A) : keeps_sensor (ret a).
Proof. now intros sw. Qed.

Lemma keeps_sensor_pure {A} (o : outcome A) : keeps_sensor (pure o).
Proof. now intros sw. Qed.

Lemma keeps_sensor_gets {A} (f : Aria2cSensor * world -> A) : keeps_sensor (gets f).
Proof. now intros sw. Qed.

Lemma keeps_sensor_in_world {A} (c : M world A) : keeps_sensor (in_world c).
Proof. intros sw. unfold in_world. now destruct (c (snd sw)). Qed.

Lemma keeps_sensor_bind {A B} (c : M (Aria2cSensor * world) A)
    (k : A -> M (Aria2cSensor * world) B) :
  keeps_sensor c -> (forall a, keeps_sensor (k a)) -> keeps_sensor (bind c k).
Proof.
  intros Hc Hk sw. unfold bind. specialize (Hc sw).
  destruct (c sw) as [[a | e] sw1]; cbn [fst snd] in *; [| assumption].
  now rewrite Hk.
Qed.

Lemma same_identity_refl (s : Aria2cSensor) : same_identity s s.
Proof. now repeat split. Qed.

Lemma keeps_identity_of_sensor {A} (c : M (Aria2cSensor * world) A) :
  keeps_sensor c -> keeps_identity c.
Proof. intros H sw. rewrite H. apply same_identity_refl. Qed.

Lemma keeps_identity_assign (v : pyval) : keeps_identity (assign_state v).
Proof. intros sw. now repeat split. Qed.

Lemma keeps_identity_bind {A B} (c : M (Aria2cSensor * world) A)
    (k : A -> M (Aria2cSensor * world) B) :
  keeps_sensor c -> (forall a, keeps_identity (k a)) -> keeps_identity (bind c k).
Proof.
  intros Hc Hk sw. unfold bind. specialize (Hc sw).
  destruct (c sw) as [[a | e] sw1]; cbn [fst snd] in *.
  - rewrite <- Hc. apply Hk.
  - rewrite Hc. apply same_identity_refl.
Qed.

Lemma raise_keeps_of_sensor {A} (c : M (Aria2cSensor * world) A) :
  keeps_sensor c -> raise_keeps_sensor c.
Proof. intros H sw _. apply H. Qed.

Lemma raise_keeps_assign (v : pyval) : raise_keeps_sensor (assign_state v).
Proof. intros sw H. discriminate H. Qed.

Lemma raise_keeps_bind {A B} (c : M (Aria2cSensor * world) A)
    (k : A -> M (Aria2cSensor * world) B) :
  keeps_sensor c -> (forall a, raise_keeps_sensor (k a)) ->
  raise_keeps_sensor (bind c k).
Proof.
  intros Hc Hk sw. unfold bind. specialize (Hc sw).
  destruct (c sw) as [[a | e] sw1]; cbn [fst snd] in *; [| intros _; assumption].
  intros H. now rewrite Hk.
Qed.

#[local] Hint Resolve keeps_sensor_ret keeps_sensor_pure keeps_sensor_gets
  keeps_sensor_in_world keeps_sensor_bind keeps_identity_of_sensor
  keeps_identity_assign keeps_identity_bind raise_keeps_of_sensor
  raise_keeps_assign raise_keeps_bind : frame.

Lemma update_metric_identity (self : Aria2cSensor) : keeps_identity (update_metric self).
Proof.
  unfold update_metric.
  destruct (aria2c_client self); [| auto with frame].
  repeat (match goal with |- context [if ?b then _ else _] => destruct b end);
    auto 10 with frame.
Qed.

Lemma update_metric_raise (self : Aria2cSensor) : raise_keeps_sensor (update_metric self).
Proof.
  unfold update_metric.
  destruct (aria2c_client self); [| auto with frame].
  repeat (match goal with |- context [if ?b then _ else _] => destruct b end);
    auto 10 with frame.
Qed.

(** For a type outside the table every branch of the metric block is
    skipped. *)
Lemma update_metric_unknown (self : Aria2cSensor) :
  known_type (type self) = false -> update_metric self = ret tt.
Proof.
  unfold known_type, update_metric. intros H.
  repeat (apply orb_false_iff in H; destruct H as [H ?]).
  destruct (aria2c_client self); [| reflexivity].
  now repeat match goal with E : (_ =? _)%string = false |- _ => rewrite E; clear E end.
Qed.

Lemma update_identity : keeps_identity update.
Proof.
  unfold update. apply keeps_identity_bind; [auto with frame |]. intros self.
  apply keeps_identity_bind; [auto with frame |]. intros _.
  apply update_metric_identity.
Qed.

(** An update that raises has not touched the sensor: the assignment of the
    state is the last step of every branch. *)
Lemma update_raise : raise_keeps_sensor update.
Proof.
  unfold update. apply raise_keeps_bind; [auto with frame |]. intros self.
  apply raise_keeps_bind; [auto with frame |]. intros _.
  apply update_metric_raise.
Qed.

Lemma update_unknown_keeps (self : Aria2cSensor) (w : world) :
  known_type (type self) = false -> fst (snd (update (self, w))) = self.
Proof.
  intros H. unfold update, bind, gets. cbn [fst].
  pose proof (keeps_sensor_in_world (refresh_aria2c_data self) (self, w)) as Hr.
  destruct (in_world (refresh_aria2c_data self) (self, w)) as [[[] | e] sw1];
    cbn [fst snd] in *; [| assumption].
  now rewrite (update_metric_unknown self H).
Qed.

(** ** C9: the frame of [update] *)

(** C9. An update never changes the name, the type, the unit label or the
    client reference of the sensor, and for a sensor whose type is none of
    [download_speed], [upload_speed], [active], [unfinished_tasks] it leaves
    the cached state unchanged as well. *)
Theorem update_frame (self : Aria2cSensor) (w : world) :
  let self' := fst (snd (update (self, w))) in
  (_name self' = _name self /\ type self' = type self /\
   _unit_of_measurement self' = _unit_of_measurement self /\
   aria2c_client self' = aria2c_client self) /\
  (known_type (type self) = false -> _state self' = _state self).
Proof.
  cbv zeta. split.
  - destruct (update_identity (self, w)) as (H1 & H2 & H3 & H4 & _). auto.
  - intros H. now rewrite update_unknown_keeps.
Qed.

Lemma update_frame_witness :
  let api := Aria2cHomeassistant_init "localhost" DEFAULT_PORT (Some "secret") in
  let s := mk_sensor (PStr "Progress") (Some api) "progress" "Aria2c" (PStr "%") (PInt 5) in
  let w := fresh_world (fun _ _ => HttpReply None) in
  _state (fst (snd (update (s, w)))) = PInt 5.
Proof.
  intros api s w.
  exact (proj2 (update_frame s w) eq_refl).
Defined.

(** ** C4: a poll cycle with a failed call *)

(** A failed call returns [None] through the default handler, or raises. *)
Lemma post_failed_reply self action params (onSuc : response -> M world pyval) w r :
  next_reply w self action params = Some r ->
  reply_fails r = true ->
  fst (_post self action params onSuc None w) = Ret PNone
  \/ is_raise (fst (_post self action params onSuc None w)) = true.
Proof.
  unfold next_reply. destruct (call_genPayload self action params) as [p |] eqn:Hp;
    [| discriminate].
  intros [= <-] Hf. rewrite (post_request _ _ _ _ _ _ _ Hp). cbv zeta.
  destruct (daemon w _ _) as [e | [j |]]; cbn [reply_fails] in Hf;
    [now right | | discriminate].
  cbn [resp_json resp_body].
  destruct (contains "error" j) as [[|] |]; try discriminate.
  destruct (obind (getitem j "error") (fun e => getitem e "code")); [| now right].
  destruct (obind (getitem j "error") (fun e => getitem e "message")); [| now right].
  now left.
Qed.

(** When the metric call of a sensor of the table fails, the metric block
    raises: the call raises, or the conversion of [None] does. *)
Lemma update_metric_fails self client sw r :
  aria2c_client self = Some client ->
  known_type (type self) = true ->
  next_reply (snd sw) client (GET_STATUS client) [] = Some r ->
  reply_fails r = true ->
  is_raise (fst (update_metric self sw)) = true.
Proof.
  intros Hc Hk Hr Hf. unfold update_metric. rewrite Hc.
  unfold known_type in Hk.
  assert (forall onSuc (k : pyval -> M (Aria2cSensor * world) unit),
             (is_raise (fst (k PNone (fst sw, snd (_post client (GET_STATUS client) []
                                                    onSuc None (snd sw))))) = true) ->
             is_raise (fst (bind (in_world (_post client (GET_STATUS client) [] onSuc None))
                              k sw)) = true) as Hpost.
  { intros onSuc k HN. unfold bind, in_world.
    destruct (post_failed_reply client (GET_STATUS client) [] onSuc (snd sw) r Hr Hf) as [H | H];
      destruct (_post client (GET_STATUS client) [] onSuc None (snd sw)) as [[v | e] w'];
      cbn [fst snd] in *; try discriminate; try reflexivity.
    injection H as ->. exact HN. }
  destruct (type self =? "download_speed")%string; [now apply Hpost |].
  destruct (type self =? "upload_speed")%string; [now apply Hpost |].
  destruct (type self =? "active")%string; [now apply Hpost |].
  destruct (type self =? "unfinished_tasks")%string; [now apply Hpost |].
  discriminate Hk.
Qed.

(** C4, the claim as stated fails, in both of its parts. First, a sensor
    whose metric call gets an RPC-level error: the update raises
    [TypeError], from [float(None)]. Second, a sensor whose throttled
    refresh gets an RPC-level error while its metric call succeeds: a call of
    the cycle has failed, yet the cached state changes, from [None] to 3. *)
Lemma update_with_failed_call :
  let api := Aria2cHomeassistant_init "localhost" DEFAULT_PORT (Some "secret") in
  let failure := PDict [("id", PStr "pyaria2c");
                        ("error", PDict [("code", PInt 1); ("message", PStr "Unauthorized")])] in
  let stat := PDict [("id", PStr "pyaria2c");
                     ("result", PDict [("numActive", PStr "3"); ("numWaiting", PStr "0")])] in
  let down := mk_sensor (PStr "Down Speed") (Some api) "download_speed" "Aria2c"
                (PStr "MB/s") PNone in
  let active := mk_sensor (PStr "Active") (Some api) "active" "Aria2c" (PStr "Tasks") PNone in
  let w1 := fresh_world (fun _ _ => HttpReply (Some failure)) in
  let w2 := with_throttle
              (fresh_world (fun n _ => HttpReply (Some (if Nat.eqb n 0 then failure else stat))))
              (Some (Throttle_wrap (timedelta_seconds 1) api)) in
  (next_reply w1 api (GET_STATUS api) [] = Some (HttpReply (Some failure))
   /\ reply_fails (HttpReply (Some failure)) = true
   /\ fst (update (down, w1))
      = Raise (TypeError "float() argument must be a string or a real number, not 'NoneType'"))
  /\
  (next_reply w2 api (GET_VER api) [] = Some (HttpReply (Some failure))
   /\ fst (update (active, w2)) = Ret tt
   /\ List.length (calls (snd (snd (update (active, w2))))) = 2%nat
   /\ _state active = PNone
   /\ _state (fst (snd (update (active, w2)))) = PInt 3).
Proof.
  repeat split.
Qed.

(** C4, amended: for every sensor and every poll cycle in which the metric
    call of the sensor fails (the transport fails, or the response carries
    an ["error"] field), the cached state after the update equals the state
    before it: the last value read, or [None] if no read ever succeeded. *)
Theorem update_keeps_state_when_metric_fails (self : Aria2cSensor) (w : world) client r :
  aria2c_client self = Some client ->
  next_reply (snd (refresh_aria2c_data self w)) client (GET_STATUS client) [] = Some r ->
  reply_fails r = true ->
  _state (fst (snd (update (self, w)))) = _state self.
Proof.
  intros Hc Hr Hf. f_equal.
  destruct (known_type (type self)) eqn:Hk; [| now apply update_unknown_keeps].
  apply (update_raise (self, w)).
  unfold update, bind, gets, in_world. cbn [fst snd].
  destruct (refresh_aria2c_data self w) as [[[] | e] w1]; [| reflexivity].
  exact (update_metric_fails self client (self, w1) r Hc Hk Hr Hf).
Qed.

Lemma update_keeps_state_when_metric_fails_witness :
  let api := Aria2cHomeassistant_init "localhost" DEFAULT_PORT (Some "secret") in
  let s := mk_sensor (PStr "Active") (Some api) "active" "Aria2c" (PStr "Tasks") (PInt 3) in
  let w := fresh_world (fun _ _ => ConnFail (requests_ConnectionError "Connection refused")) in
  _state (fst (snd (update (s, w)))) = PInt 3.
Proof.
  intros api s w.
  exact (update_keeps_state_when_metric_fails s w api
           (ConnFail (requests_ConnectionError "Connection refused"))
           eq_refl eq_refl eq_refl).
Defined.

(** ** C6: a connection failure during setup *)

(** What [setup_platform] does when the transport fails at the liveness
    probe: the handler runs only for an instance of the builtin
    [ConnectionError], and it returns [False] only if that instance has an
    attribute [original]; in no case is a sensor registered or the throttle
    installed. *)
Lemma setup_on_transport_failure Tasks config w tok e :
  CONF_TOKEN config = Some tok ->
  let api := Aria2cHomeassistant_init (CONF_HOST config) (CONF_PORT config) (Some tok) in
  let rq := mk_request (serverUrl api)
              (PDict [("jsonrpc", PStr "2.0"); ("id", PStr "pyaria2c");
                      ("method", PStr "aria2.getVersion");
                      ("params", PList [PStr ("token:" ++ tok)])]) in
  daemon w (List.length (calls w)) rq = ConnFail e ->
  setup_platform Tasks config w =
    (if isinstance e "ConnectionError" then
       match exc_getattr e "original" with
       | Ret original =>
           (Ret (PBool false),
            with_output (sent w rq)
              (output w ++ [LogError "Connection to Aria2c API failed on %s:%s with message %s"
                              [PStr (CONF_HOST config); PInt (CONF_PORT config); original]])%list)
       | Raise err => (Raise err, sent w rq)
       end
     else (Raise e, sent w rq))
  /\ devices (snd (setup_platform Tasks config w)) = devices w
  /\ _THROTTLED_REFRESH (snd (setup_platform Tasks config w)) = _THROTTLED_REFRESH w.
Proof.
  intros Ht api rq Hd.
  assert (setup_platform Tasks config w =
            if isinstance e "ConnectionError" then
              match exc_getattr e "original" with
              | Ret original =>
                  (Ret (PBool false),
                   with_output (sent w rq)
                     (output w ++ [LogError "Connection to Aria2c API failed on %s:%s with message %s"
                                     [PStr (CONF_HOST config); PInt (CONF_PORT config); original]])%list)
              | Raise err => (Raise err, sent w rq)
              end
            else (Raise e, sent w rq)) as Hs.
  { unfold setup_platform. rewrite Ht. fold api.
    unfold bind at 1, try_except, bind at 1, getVer.
    rewrite (post_request api (GET_VER api) [] _ None w _ (genPayload_token api _ tok eq_refl)).
    cbv zeta. fold rq. change (mk_request (serverUrl api) _) with rq. rewrite Hd.
    destruct (isinstance e "ConnectionError"); [| reflexivity].
    unfold bind, pure. destruct (exc_getattr e "original"); reflexivity. }
  split; [exact Hs |]. rewrite Hs.
  destruct (isinstance e "ConnectionError"); [| now split].
  destruct (exc_getattr e "original"); now split.
Qed.

(** C6 (the code departs from it). The claim: when the transport fails
    during the liveness probe, setup catches the failure, logs host, port
    and message, and returns a failure value without registering a sensor.
    The handler of [setup_platform] names [ConnectionError], which the
    module does not import and which therefore is the builtin class, and
    reads the attribute [original] of what it catches. The exception that
    [requests.post] raises for an unreachable daemon is
    [requests.exceptions.ConnectionError], which is no instance of the
    builtin class: it leaves [setup_platform] uncaught, nothing is logged
    and no value is returned. Were the failure an instance of the builtin
    class (here [ConnectionRefusedError]), the handler would raise
    [AttributeError] at [error.original] instead of returning [False]. Only
    the last part of the claim holds: no sensor is registered. *)
Theorem setup_connection_failure_is_not_caught (Tasks : pyval) :
  let config := mk_config DEFAULT_NAME "localhost" DEFAULT_PORT (Some "secret") ["active"] in
  let e := requests_ConnectionError "Connection refused" in
  let refused := builtin_exc "ConnectionRefusedError" ["ConnectionError"; "OSError"]
                   "[Errno 111] Connection refused" in
  let w := fresh_world (fun _ _ => ConnFail e) in
  let w' := fresh_world (fun _ _ => ConnFail refused) in
  load_name module_globals module_builtins "ConnectionError"
    = Ret (PObject "builtins.ConnectionError")
  /\
  (isinstance e "ConnectionError" = false
   /\ fst (setup_platform Tasks config w) = Raise e
   /\ output (snd (setup_platform Tasks config w)) = []
   /\ devices (snd (setup_platform Tasks config w)) = [])
  /\
  (isinstance refused "ConnectionError" = true
   /\ fst (setup_platform Tasks config w') = Raise (AttributeError "original")
   /\ output (snd (setup_platform Tasks config w')) = []
   /\ devices (snd (setup_platform Tasks config w')) = []).
Proof.
  repeat split.
Qed.

(** ** C5: the throttled refresh *)

(** The probe makes exactly one network call and touches neither the clock
    nor the throttle slot. *)
Lemma getVer_effect self tok w :
  token self = Some tok ->
  calls (snd (getVer self w)) = (calls w ++ [version_request self tok])%list
  /\ now (snd (getVer self w)) = now w
  /\ _THROTTLED_REFRESH (snd (getVer self w)) = _THROTTLED_REFRESH w.
Proof.
  intros Ht. unfold getVer.
  rewrite (post_request self (GET_VER self) [] _ None w _ (genPayload_token self _ tok Ht)).
  cbv zeta. fold (version_request self tok).
  destruct (daemon w _ _) as [e | body]; [now repeat split |].
  destruct (resp_json _) as [result |]; [| now repeat split].
  destruct (contains "error" result) as [[|] |]; [| | now repeat split].
  - destruct (obind (getitem result "error") (fun e => getitem e "code"));
      [| now repeat split].
    destruct (obind (getitem result "error") (fun e => getitem e "message"));
      now repeat split.
  - unfold pure. now repeat split.
Qed.





(** The throttle a completed [setup_platform] leaves in the slot is the one
    the theorem is about: a spacing of one second around the probe of a
    client whose token is set, and no invocation yet. *)
Lemma setup_installs_throttle Tasks config w v w' :
  setup_platform Tasks config w = (Ret v, w') ->
  v <> PBool false ->
  exists thr tok,
    _THROTTLED_REFRESH w' = Some thr
    /\ thr_min_time thr = timedelta_seconds 1
    /\ token (thr_self thr) = Some tok
    /\ due thr w' = true.
Proof.
  intros H Hv. unfold setup_platform in H.
  set (api := Aria2cHomeassistant_init _ _ _) in H.
  unfold bind at 1 in H.
  destruct (try_except _ _ _ w) as [[[api' | failure] | e] w1] eqn:Htry;
    [| | discriminate].
  - assert (api' = api /\ exists tok, token api = Some tok) as (-> & tok & Htok).
    { unfold try_except, bind in Htry.
      destruct (CONF_TOKEN config) as [tok |] eqn:Ht.
      - destruct (getVer api w) as [[? | e] ?]; cbn in Htry.
        + injection Htry as <- _. split; [reflexivity |]. now exists tok.
        + destruct (isinstance e "ConnectionError"); [| discriminate].
          unfold pure in Htry. destruct (exc_getattr e "original"); discriminate.
      - unfold getVer in Htry.
        rewrite (post_no_request api (GET_VER api) [] _ None w
                   (TypeError (concat_error "NoneType")))
          in Htry by reflexivity.
        discriminate. }
    unfold bind, modify, pure, add_devices, ret in H.
    destruct (make_devices _ _ _ _); [| discriminate].
    injection H as _ <-. exists (Throttle_wrap (timedelta_seconds 1) api), tok.
    now repeat split.
  - exfalso. apply Hv. unfold ret in H. injection H as <- _.
    unfold try_except, bind in Htry.
    destruct (getVer api w) as [[? | e] ?]; cbn in Htry; [discriminate |].
    destruct (isinstance e "ConnectionError"); [| discriminate].
    unfold pure in Htry. destruct (exc_getattr e "original"); [| discriminate].
    unfold emit, modify, ret in Htry. now injection Htry as <- _.
Qed.


(** ** Binary64 arithmetic: division by a power of two is exact *)

Lemma binary_round_aux_finish sx mx ex lx :
  binary_round_aux prec emax sx mx ex lx =
    let '(mrs, e) := shr_fexp prec emax mx ex lx in
    finish sx (round_nearest_even (shr_m mrs) (loc_of_shr_record mrs)) e.
Proof. reflexivity. Qed.

Lemma digits2_pos_bounds (p : positive) :
  2 ^ (Zpos (digits2_pos p) - 1) <= Zpos p < 2 ^ Zpos (digits2_pos p).
Proof.
  induction p as [p IH | p IH |]; cbn [digits2_pos].
  - rewrite Pos2Z.inj_succ.
    replace (Z.succ (Zpos (digits2_pos p)) - 1) with (Z.succ (Zpos (digits2_pos p) - 1)) by lia.
    rewrite !Z.pow_succ_r by lia. lia.
  - rewrite Pos2Z.inj_succ.
    replace (Z.succ (Zpos (digits2_pos p)) - 1) with (Z.succ (Zpos (digits2_pos p) - 1)) by lia.
    rewrite !Z.pow_succ_r by lia. lia.
  - cbn. lia.
Qed.

Lemma digits2_pos_unique (p : positive) (k : Z) :
  2 ^ (k - 1) <= Zpos p < 2 ^ k -> Zpos (digits2_pos p) = k.
Proof.
  intros [Hl Hu]. pose proof (digits2_pos_bounds p) as [Bl Bu].
  assert (0 < k).
  { destruct (Z.ltb_spec 0 k); [assumption |].
    assert (2 ^ k <= 2 ^ 0) by (apply Z.pow_le_mono_r; lia). simpl in *. lia. }
  destruct (Z.lt_trichotomy (Zpos (digits2_pos p)) k) as [Hlt | [Heq | Hgt]]; [| assumption |].
  - assert (2 ^ Zpos (digits2_pos p) <= 2 ^ (k - 1)) by (apply Z.pow_le_mono_r; lia). lia.
  - assert (2 ^ k <= 2 ^ (Zpos (digits2_pos p) - 1)) by (apply Z.pow_le_mono_r; lia). lia.
Qed.

Lemma shr_1_div2 (x : shr_record) :
  0 <= shr_m x -> shr_m (shr_1 x) = shr_m x / 2.
Proof.
  destruct x as [m r s]. cbn [shr_m]. intros Hm.
  destruct m as [| [p | p |] | p]; try lia; cbn [shr_1 shr_m].
  - reflexivity.
  - apply Z.div_unique with (r := 1); lia.
  - apply Z.div_unique with (r := 0); lia.
  - reflexivity.
Qed.

Lemma iter_shr_1_div (n : positive) :
  forall x, 0 <= shr_m x -> shr_m (iter_pos shr_1 n x) = shr_m x / 2 ^ Zpos n.
Proof.
  assert (forall x, 0 <= shr_m x -> 0 <= shr_m (shr_1 x)) as P1.
  { intros x Hx. rewrite shr_1_div2 by assumption. apply Z.div_pos; lia. }
  induction n as [n IH | n IH |]; intros x Hx; cbn [iter_pos];
    try pose proof (Z.pow_pos_nonneg 2 (Zpos n) ltac:(lia) ltac:(lia)) as Hpow.
  - assert (0 <= shr_m (iter_pos shr_1 n (shr_1 x))) as H1.
    { rewrite IH by auto. apply Z.div_pos; auto. }
    rewrite IH, IH, shr_1_div2 by auto.
    replace (2 ^ Zpos n~1) with (2 * 2 ^ Zpos n * 2 ^ Zpos n).
    + rewrite <- !Z.div_div by lia. reflexivity.
    + rewrite (Pos2Z.inj_xI n), Z.pow_add_r, Z.pow_twice_r by lia.
      change (2 ^ 1) with 2. lia.
  - assert (0 <= shr_m (iter_pos shr_1 n x)) as H1.
    { rewrite IH by auto. apply Z.div_pos; auto. }
    rewrite IH, IH by auto.
    replace (2 ^ Zpos n~0) with (2 ^ Zpos n * 2 ^ Zpos n).
    + rewrite <- !Z.div_div by lia. reflexivity.
    + rewrite (Pos2Z.inj_xO n), Z.pow_twice_r. lia.
  - apply shr_1_div2. assumption.
Qed.

Lemma finish_normal sx m E :
  Zpos (digits2_pos m) = 53 -> -1074 <= E ->
  finish sx (Zpos m) E = if E <=? 971 then S754_finite sx m E else S754_infinity sx.
Proof.
  intros Hd HE. unfold finish, shr_fexp. cbn [Zdigits2]. rewrite Hd.
  replace (fexp prec emax (53 + E) - E) with 0
    by (unfold fexp, emin, prec, emax; lia).
  reflexivity.
Qed.

Lemma finish_carry sx E :
  -1075 <= E ->
  finish sx 9007199254740992 E =
    if E + 1 <=? 971 then S754_finite sx 4503599627370496 (E + 1) else S754_infinity sx.
Proof.
  intros HE. unfold finish, shr_fexp.
  change (Zdigits2 9007199254740992) with 54.
  replace (fexp prec emax (54 + E) - E) with 1
    by (unfold fexp, emin, prec, emax; lia).
  reflexivity.
Qed.

Lemma digits2_pos_iter_xO (k p : positive) :
  Zpos (digits2_pos (Pos.iter xO p k)) = Zpos (digits2_pos p) + Zpos k.
Proof.
  induction k as [| k IH] using Pos.peano_ind.
  - cbn [Pos.iter digits2_pos]. lia.
  - rewrite Pos.iter_succ. cbn [digits2_pos]. lia.
Qed.

Lemma round_nearest_even_range (m : Z) (l : location) :
  round_nearest_even m l = m \/ round_nearest_even m l = m + 1.
Proof.
  destruct l as [| []]; cbn [round_nearest_even]; auto.
  destruct (Z.even m); auto.
Qed.

Lemma iter_xO_value (k p : positive) :
  Zpos (Pos.iter xO p k) = Zpos p * 2 ^ Zpos k.
Proof.
  induction k as [| k IH] using Pos.peano_ind.
  - cbn [Pos.iter]. change (2 ^ 1) with 2. lia.
  - rewrite Pos.iter_succ, Pos2Z.inj_succ, Z.pow_succ_r, (Pos2Z.inj_xO (Pos.iter xO p k)), IH
      by lia.
    ring.
Qed.

(** The float of a positive integer is an infinity or a normal number; up
    to 53 bits the integer is represented exactly, with an exponent that is
    not positive. *)
Lemma float_of_Z_normal (p : positive) :
  (float_of_Z (Zpos p) = S754_infinity false /\ 2 ^ 53 <= Zpos p)
  \/ exists m e, float_of_Z (Zpos p) = S754_finite false m e
                 /\ Zpos (digits2_pos m) = 53 /\ -52 <= e <= 971
                 /\ (e <= 0 -> Zpos m = Zpos p * 2 ^ (- e))
                 /\ (0 < e -> 2 ^ 53 <= Zpos p).
Proof.
  unfold float_of_Z, binary_normalize, binary_round.
  pose proof (digits2_pos_bounds p) as [Bl Bu].
  set (d := Zpos (digits2_pos p)) in *.
  assert (0 < d) as Hd by (unfold d; lia).
  replace (fexp prec emax (d + 0)) with (d - 53)
    by (unfold fexp, emin, prec, emax; lia).
  unfold shl_align.
  destruct (d - 53 - 0) as [| k | k] eqn:Hk.
  - (* exactly 53 bits *)
    rewrite binary_round_aux_finish. unfold shr_fexp. fold d. cbn [Zdigits2]. fold d.
    replace (fexp prec emax (d + 0) - 0) with 0
      by (unfold fexp, emin, prec, emax; lia).
    cbn [shr shr_record_of_loc shr_m loc_of_shr_record round_nearest_even].
    rewrite finish_normal by (fold d; lia).
    right. exists p, 0. cbn [Z.leb Z.compare Z.opp]. change (2 ^ 0) with 1.
    repeat split; lia.
  - (* more than 53 bits: the low ones are rounded away *)
    assert (2 ^ 53 <= Zpos p) as Hbig.
    { assert (2 ^ 53 <= 2 ^ (d - 1)) by (apply Z.pow_le_mono_r; lia). lia. }
    rewrite binary_round_aux_finish. unfold shr_fexp. cbn [Zdigits2]. fold d.
    replace (fexp prec emax (d + 0) - 0) with (Zpos k)
      by (unfold fexp, emin, prec, emax; lia).
    cbn [shr shr_record_of_loc].
    set (x := iter_pos shr_1 k _).
    assert (shr_m x = Zpos p / 2 ^ Zpos k) as Hx
        by (unfold x; rewrite iter_shr_1_div; cbn [shr_m]; [reflexivity | lia]).
    assert (2 ^ 52 <= shr_m x < 2 ^ 53) as [Xl Xu].
    { rewrite Hx. pose proof (Z.pow_pos_nonneg 2 (Zpos k) ltac:(lia) ltac:(lia)).
      assert (2 ^ d = 2 ^ 53 * 2 ^ Zpos k) as E1
          by (rewrite <- Z.pow_add_r by lia; f_equal; lia).
      assert (2 ^ (d - 1) = 2 ^ 52 * 2 ^ Zpos k) as E2
          by (rewrite <- Z.pow_add_r by lia; f_equal; lia).
      split.
      - apply Z.div_le_lower_bound; lia.
      - apply Z.div_lt_upper_bound; lia. }
    destruct (round_nearest_even_range (shr_m x) (loc_of_shr_record x)) as [-> | ->].
    + destruct (shr_m x) as [| m |] eqn:Hm; try (change (2 ^ 52) with 4503599627370496 in Xl; lia).
      rewrite finish_normal by (try (apply digits2_pos_unique; split; assumption); lia).
      destruct (0 + Zpos k <=? 971) eqn:Hle; [| left; split; [reflexivity | exact Hbig]].
      apply Z.leb_le in Hle.
      right. exists m, (0 + Zpos k). repeat split; try lia.
      apply digits2_pos_unique. split; assumption.
    + destruct (Z.eq_dec (shr_m x + 1) (2 ^ 53)) as [Hc | Hc].
      * rewrite Hc. change (2 ^ 53) with 9007199254740992.
        rewrite finish_carry by lia.
        destruct (0 + Zpos k + 1 <=? 971) eqn:Hle; [| left; split; [reflexivity | exact Hbig]].
        apply Z.leb_le in Hle.
        right. exists 4503599627370496%positive, (0 + Zpos k + 1). repeat split; lia.
      * destruct (shr_m x + 1) as [| m |] eqn:Hm; try lia.
        assert (Zpos (digits2_pos m) = 53) as Hdm
            by (apply digits2_pos_unique; lia).
        rewrite finish_normal by (try assumption; lia).
        destruct (0 + Zpos k <=? 971) eqn:Hle; [| left; split; [reflexivity | exact Hbig]].
        apply Z.leb_le in Hle.
        right. exists m, (0 + Zpos k). repeat split; lia.
  - (* fewer than 53 bits: the mantissa is shifted left *)
    rewrite binary_round_aux_finish. unfold shr_fexp. cbn [Zdigits2].
    rewrite digits2_pos_iter_xO. fold d.
    replace (fexp prec emax (d + Z.pos k + (d - 53)) - (d - 53)) with 0
      by (unfold fexp, emin, prec, emax; lia).
    cbn [shr shr_record_of_loc shr_m loc_of_shr_record round_nearest_even].
    rewrite finish_normal by (try rewrite digits2_pos_iter_xO; fold d; lia).
    replace (d - 53 <=? 971) with true by (symmetry; apply Z.leb_le; lia).
    right. eexists _, _. split; [reflexivity |].
    rewrite digits2_pos_iter_xO. fold d.
    repeat split; try lia.
    intros _. rewrite iter_xO_value. do 2 f_equal. lia.
Qed.

Lemma div_eucl_div_mod (a b : Z) : Z.div_eucl a b = (a / b, a mod b).
Proof. unfold Z.div, Z.modulo. now destruct (Z.div_eucl a b). Qed.

(** Dividing a normal number by a power of two lowers its exponent. *)
Lemma float_div_pow2 (m : positive) (e k : Z) :
  Zpos (digits2_pos m) = 53 ->
  -1073 <= e - k <= 971 ->
  float_div (S754_finite false m e) (S754_finite false 4503599627370496 (k - 52))
    = S754_finite false m (e - k).
Proof.
  intros Hd He. unfold float_div, SFdiv, SFdiv_core_binary.
  cbn [Zdigits2]. rewrite Hd.
  change (Zpos (digits2_pos 4503599627370496)) with 53.
  replace (Z.min (fexp prec emax (53 + e - (53 + (k - 52)))) (e - (k - 52)))
    with (e - k - 1) by (unfold fexp, emin, prec, emax; lia).
  replace (e - (k - 52) - (e - k - 1)) with 53 by lia.
  cbv iota.
  assert (Z.div_eucl (Z.shiftl (Zpos m) 53) 4503599627370496 = (Zpos m~0, 0)) as ->.
  { rewrite div_eucl_div_mod, Z.shiftl_mul_pow2 by lia.
    replace (Zpos m * 2 ^ 53) with (Zpos m~0 * 4503599627370496)
      by (change (2 ^ 53) with 9007199254740992; lia).
    rewrite Z.div_mul, Z.mod_mul by lia. reflexivity. }
  change (new_location 4503599627370496 0) with loc_Exact.
  rewrite binary_round_aux_finish. unfold shr_fexp. cbn [Zdigits2 digits2_pos].
  rewrite Pos2Z.inj_succ, Hd.
  replace (fexp prec emax (Z.succ 53 + (e - k - 1)) - (e - k - 1)) with 1
    by (unfold fexp, emin, prec, emax; lia).
  cbn [shr shr_record_of_loc iter_pos shr_1 shr_m loc_of_shr_record round_nearest_even
       xorb orb].
  rewrite finish_normal by (try assumption; lia).
  replace (e - k - 1 + 1) with (e - k) by lia.
  now replace (e - k <=? 971) with true by (symmetry; apply Z.leb_le; lia).
Qed.

(** Dividing the float of a non-negative integer by 1024 twice is dividing
    it by 1048576 once: each division is exact. *)
Lemma div_1024_twice (v : Z) :
  0 <= v ->
  float_div (float_div (float_of_Z v) f_1024) f_1024
    = float_div (float_of_Z v) (float_of_Z 1048576).
Proof.
  intros Hv. destruct v as [| p | p]; [reflexivity | | lia].
  destruct (float_of_Z_normal p) as [[-> _] | (m & e & -> & Hd & He & _)]; [reflexivity |].
  change f_1024 with (S754_finite false 4503599627370496 (10 - 52)).
  change (float_of_Z 1048576) with (S754_finite false 4503599627370496 (20 - 52)).
  rewrite !float_div_pow2 by (try assumption; lia).
  f_equal. lia.
Qed.

(** Two positive finite floats in normal form compare by exponent, then by
    mantissa. *)
Lemma float_ltb_finite (m1 m2 : positive) (e1 e2 : Z) :
  float_ltb (S754_finite false m1 e1) (S754_finite false m2 e2) =
    match e1 ?= e2 with
    | Lt => true
    | Gt => false
    | Eq => Zpos m1 <? Zpos m2
    end.
Proof.
  unfold float_ltb, SFltb, SFcompare.
  destruct (e1 ?= e2); reflexivity.
Qed.

(** The comparison with the float [0.1] decides as exact arithmetic does:
    the float of [v] divided by 1048576 is below the float nearest to one
    tenth exactly when [v / 1048576 < 1 / 10], that is [10 * v < 1048576]. *)
Lemma below_tenth_exact (v : Z) :
  0 <= v ->
  float_ltb (float_div (float_of_Z v) (float_of_Z 1048576)) f_0_1 = (10 * v <? 1048576).
Proof.
  intros Hv. destruct v as [| p | p]; [vm_compute; reflexivity | | lia].
  assert (float_of_Z 1048576 = S754_finite false 4503599627370496 (20 - 52)) as E20
      by (vm_compute; reflexivity).
  assert (f_0_1 = S754_finite false 7205759403792794 (-56)) as E01
      by (vm_compute; reflexivity).
  assert (2 ^ 53 = 9007199254740992) as P53 by (vm_compute; reflexivity).
  assert (2 ^ 52 = 4503599627370496) as P52 by (vm_compute; reflexivity).
  assert (2 ^ 37 = 137438953472) as P37 by (vm_compute; reflexivity).
  assert (2 ^ 36 = 68719476736) as P36 by (vm_compute; reflexivity).
  assert (2 ^ 35 = 34359738368) as P35 by (vm_compute; reflexivity).
  destruct (float_of_Z_normal p) as [[-> Hbig] | (m & e & -> & Hd & He & Hex & Hbig)].
  - rewrite P53 in Hbig. rewrite E20, E01.
    symmetry. apply Z.ltb_ge. lia.
  - rewrite E20, E01, float_div_pow2, float_ltb_finite by (try assumption; lia).
    pose proof (digits2_pos_bounds m) as [Ml Mu]. rewrite Hd in Ml, Mu.
    replace (53 - 1) with 52 in Ml by lia. rewrite P52 in Ml. rewrite P53 in Mu, Hbig.
    destruct (Z.compare_spec (e - 20) (-56)) as [Heq | Hlt | Hgt].
    + assert (e = -36) as -> by lia.
      specialize (Hex ltac:(lia)). replace (- -36) with 36 in Hex by lia. rewrite P36 in Hex.
      destruct (Z.ltb_spec (Zpos m) 7205759403792794);
        symmetry; [apply Z.ltb_lt | apply Z.ltb_ge]; lia.
    + specialize (Hex ltac:(lia)).
      assert (2 ^ 37 <= 2 ^ (- e)) as Hp by (apply Z.pow_le_mono_r; lia).
      rewrite P37 in Hp.
      assert (Zpos p * 137438953472 <= Zpos p * 2 ^ (- e)) as Hm
          by (apply Z.mul_le_mono_nonneg_l; lia).
      symmetry. apply Z.ltb_lt. lia.
    + symmetry. apply Z.ltb_ge.
      destruct (Z.leb_spec e 0) as [Hneg | Hpos]; [| specialize (Hbig Hpos); lia].
      specialize (Hex Hneg).
      assert (2 ^ (- e) <= 2 ^ 35) as Hp by (apply Z.pow_le_mono_r; lia).
      rewrite P35 in Hp.
      assert (Zpos p * 2 ^ (- e) <= Zpos p * 34359738368) as Hm
          by (apply Z.mul_le_mono_nonneg_l; lia).
      lia.
Qed.

(** The sensors report two decimal places for raw values up to 104857 bytes
    per second and one decimal place from 104858 on. *)
Lemma speed_spec_threshold (v : Z) :
  0 <= v ->
  speed_spec v =
    py_round (float_div (float_of_Z v) (float_of_Z 1048576))
      (if v <? 104858 then 2 else 1).
Proof.
  intros Hv. unfold speed_spec. rewrite (below_tenth_exact v Hv).
  replace (10 * v <? 1048576) with (v <? 104858)
    by (destruct (Z.ltb_spec v 104858), (Z.ltb_spec (10 * v) 1048576); lia || reflexivity).
  now destruct (v <? 104858).
Qed.

(** ** C1: the state of a speed sensor *)

(** What the code computes from a float is what the specification words. *)
Lemma speed_of_float_of_Z (v : Z) :
  0 <= v ->
  py_round (float_div (float_div (float_of_Z v) f_1024) f_1024)
    (if float_ltb (float_div (float_div (float_of_Z v) f_1024) f_1024) f_0_1
     then 2 else 1)
  = speed_spec v.
Proof.
  intros Hv. rewrite (div_1024_twice v Hv). unfold speed_spec.
  now destruct (float_ltb _ f_0_1).
Qed.

(** The raw value as the daemon sends it, a decimal string. *)
Lemma speed_state_decimal (v : Z) :
  0 <= v -> speed_state (PStr (string_of_Z v)) = Ret (PFloat (speed_spec v)).
Proof.
  intros Hv. unfold speed_state. cbn [py_float].
  rewrite (float_of_string_decimal v Hv). cbn [obind]. cbv zeta.
  now rewrite (speed_of_float_of_Z v Hv).
Qed.

(** The raw value as a JSON number, when it is in the range of the floats. *)
Lemma speed_state_number (v : Z) :
  0 <= v -> (forall s, float_of_Z v <> S754_infinity s) ->
  speed_state (PInt v) = Ret (PFloat (speed_spec v)).
Proof.
  intros Hv Hfin. unfold speed_state. cbn [py_float].
  destruct (float_of_Z v) eqn:Hf; try (now elim (Hfin s));
    cbn [obind]; cbv zeta; rewrite <- Hf; now rewrite (speed_of_float_of_Z v Hv).
Qed.

(** C1. For a speed sensor ([download_speed] reading [downloadSpeed],
    [upload_speed] reading [uploadSpeed]) and every non-negative raw value
    [v] that the daemon returns for it, the update sets the state to
    [round(v / 1048576, 2)] when [v / 1048576 < 0.1] and to
    [round(v / 1048576, 1)] otherwise, and raises nothing. *)
Theorem speed_sensor_update
    (self : Aria2cSensor) (w : world) client field p d res (v : Z) :
  aria2c_client self = Some client ->
  (type self = "download_speed" /\ field = "downloadSpeed"
   \/ type self = "upload_speed" /\ field = "uploadSpeed") ->
  fst (refresh_aria2c_data self w) = Ret tt ->
  call_genPayload client (GET_STATUS client) [] = Ret p ->
  daemon (snd (refresh_aria2c_data self w))
    (List.length (calls (snd (refresh_aria2c_data self w))))
    (mk_request (serverUrl client) p) = HttpReply (Some (PDict d)) ->
  dict_get "error" d = None ->
  dict_get "result" d = Some (PDict res) ->
  dict_get field res = Some (PStr (string_of_Z v)) ->
  0 <= v ->
  update (self, w) =
    (Ret tt,
     (set_state self (PFloat (speed_spec v)),
      sent (snd (refresh_aria2c_data self w)) (mk_request (serverUrl client) p))).
Proof.
  intros Hc Hty Href Hp Hd He Hr Hf Hv.
  unfold update, bind at 1, gets. cbn [fst]. unfold bind at 1, in_world. cbn [fst snd].
  destruct (refresh_aria2c_data self w) as [r w1]. cbn [fst snd] in *. subst r.
  assert (forall success,
             success = (fun response => pure (result_field response field)) ->
             _post client (GET_STATUS client) [] success None w1
               = (Ret (PStr (string_of_Z v)), sent w1 (mk_request (serverUrl client) p)))
    as Hpost.
  { intros success ->. rewrite (post_request _ _ _ _ _ _ _ Hp). cbv zeta. rewrite Hd.
    cbn [resp_json resp_body contains]. rewrite He.
    unfold pure, result_field. cbn [resp_json resp_body obind getitem]. rewrite Hr.
    cbn [obind getitem]. now rewrite Hf. }
  unfold update_metric. rewrite Hc.
  destruct Hty as [[Ht ->] | [Ht ->]]; rewrite Ht; cbn [String.eqb Ascii.eqb Bool.eqb];
    unfold bind, in_world, pure, assign_state, modify; cbn [fst snd].
  - unfold getDownloadSpeed. rewrite (Hpost _ eq_refl).
    now rewrite (speed_state_decimal v Hv).
  - unfold getUpSpeed. rewrite (Hpost _ eq_refl).
    now rewrite (speed_state_decimal v Hv).
Qed.

Lemma speed_sensor_update_witness :
  let api := Aria2cHomeassistant_init "localhost" DEFAULT_PORT (Some "secret") in
  let down := mk_sensor (PStr "Down Speed") (Some api) "download_speed" "Aria2c"
                (PStr "MB/s") PNone in
  let up := mk_sensor (PStr "Up Speed") (Some api) "upload_speed" "Aria2c"
              (PStr "MB/s") PNone in
  let res := [("downloadSpeed", PStr "52428"); ("uploadSpeed", PStr "2097152")] in
  let w := fresh_world (fun _ _ => HttpReply (Some (PDict [("result", PDict res)]))) in
  (_state (fst (snd (update (down, w)))) = PFloat (speed_spec 52428)
   /\ speed_spec 52428 = float_of_decimal false 5 (-2))
  /\
  (_state (fst (snd (update (up, w)))) = PFloat (speed_spec 2097152)
   /\ speed_spec 2097152 = float_of_decimal false 20 (-1)).
Proof.
  intros api down up res w.
  pose (p := PDict [("jsonrpc", PStr "2.0"); ("id", PStr "pyaria2c");
                    ("method", PStr "aria2.getGlobalStat");
                    ("params", PList [PStr "token:secret"])]).
  split; (split; [| reflexivity]).
  - rewrite (speed_sensor_update down w api "downloadSpeed" p
               [("result", PDict res)] res 52428);
      try reflexivity; [left; now split | lia].
  - rewrite (speed_sensor_update up w api "uploadSpeed" p
               [("result", PDict res)] res 2097152);
      try reflexivity; [right; now split | lia].
Defined.

(** * Further properties of the module *)

(** ** The request body in full *)

Lemma append_empty_r (s : string) : s ++ "" = s.
Proof. induction s as [| c s IH]; [reflexivity |]. cbn. now rewrite IH. Qed.

(** X1. For a client with a token and a call identifier that is absent or a
    string, [_genPayload] returns exactly the four-member object of the wire
    protocol: the identifier is the prefix followed by the suffix (an empty
    suffix counts as none), and the parameter list is the token followed by
    those of [uris] and [options] that are true in a condition, in this
    order: an empty list or an empty object is left out, and [options] moves
    up when [uris] is left out. *)
Theorem genPayload_exact self method uris options cid tok :
  token self = Some tok ->
  (cid = PNone \/ exists c, cid = PStr c) ->
  _genPayload self method uris options cid =
    Ret (PDict [("jsonrpc", PStr "2.0");
                ("id", PStr (IDPREFIX self ++ match cid with PStr c => c | _ => "" end));
                ("method", PStr method);
                ("params", PList (PStr ("token:" ++ tok) :: filter truthy [uris; options]))]).
Proof.
  intros Ht Hc. unfold _genPayload, token_value. rewrite Ht.
  assert ((if truthy cid then str_add (IDPREFIX self) cid else Ret (PStr (IDPREFIX self)))
          = Ret (PStr (IDPREFIX self ++ match cid with PStr c => c | _ => "" end))) as ->.
  { destruct Hc as [-> | [c ->]]; cbn [truthy].
    - now rewrite append_empty_r.
    - destruct c; cbn; [now rewrite append_empty_r | reflexivity]. }
  cbn [obind str_add filter].
  destruct (truthy uris), (truthy options); reflexivity.
Qed.

Lemma genPayload_exact_witness :
  let api := Aria2cHomeassistant_init "localhost" DEFAULT_PORT (Some "secret") in
  _genPayload api "aria2.addUri" (PList []) (PDict [("dir", PStr "/tmp")]) (PStr "-7") =
    Ret (PDict [("jsonrpc", PStr "2.0");
                ("id", PStr "pyaria2c-7");
                ("method", PStr "aria2.addUri");
                ("params", PList [PStr "token:secret"; PDict [("dir", PStr "/tmp")]])]).
Proof.
  intros api.
  exact (genPayload_exact api "aria2.addUri" (PList []) (PDict [("dir", PStr "/tmp")])
           (PStr "-7") "secret" eq_refl (or_intror (ex_intro _ "-7" eq_refl))).
Defined.

(** X2. A call identifier that is true in a condition and is not a string
    makes [_genPayload] raise [TypeError] at the concatenation with the
    prefix, whether the client has a token or not. *)
Theorem genPayload_bad_cid self method uris options cid :
  truthy cid = true ->
  (forall c, cid <> PStr c) ->
  _genPayload self method uris options cid =
    Raise (TypeError (concat_error (type_name cid))).
Proof.
  intros Ht Hc. unfold _genPayload. rewrite Ht.
  destruct cid; try reflexivity. now elim (Hc s).
Qed.

Lemma genPayload_bad_cid_witness :
  _genPayload (Aria2cHomeassistant_init "localhost" DEFAULT_PORT None)
    "aria2.getVersion" PNone PNone (PInt 7) =
    Raise (TypeError (concat_error "int")).
Proof.
  apply (genPayload_bad_cid _ "aria2.getVersion" PNone PNone (PInt 7)).
  - reflexivity.
  - discriminate.
Defined.

(** ** The dispatch of [_post] *)

(** X3. When the transport fails, [_post] raises the exception of the
    transport as it is, whatever the handlers: one call has been made,
    neither handler has run and nothing has been printed. *)
Theorem post_transport_failure self action params onSuc onFail w p e :
  call_genPayload self action params = Ret p ->
  daemon w (List.length (calls w)) (mk_request (serverUrl self) p) = ConnFail e ->
  _post self action params onSuc onFail w
    = (Raise e, sent w (mk_request (serverUrl self) p)).
Proof.
  intros Hp Hd. rewrite (post_request _ _ _ _ _ _ _ Hp). cbv zeta. now rewrite Hd.
Qed.

Lemma post_transport_failure_witness :
  let api := Aria2cHomeassistant_init "localhost" DEFAULT_PORT (Some "secret") in
  let e := requests_ConnectionError "Connection refused" in
  let w := fresh_world (fun _ _ => ConnFail e) in
  _post api (GET_VER api) [] (fun _ => ret (PStr "unreachable")) None w
    = (Raise e, sent w (plain_request api (GET_VER api) "secret")).
Proof.
  intros api e w.
  exact (post_transport_failure api (GET_VER api) [] _ None w _ e eq_refl eq_refl).
Defined.

(** X4. On a response that is an object, [_post] chooses the handler by the
    presence of the key ["error"] alone. Without the key the result is that
    of the success handler, run on the response after the call. With the
    key, an error object with ["code"] and ["message"] and a failure handler
    given by the caller, the result is that of the caller's handler on the
    code and the message: the default handler is not run. *)
Theorem post_dispatch self action params onSuc w p d :
  call_genPayload self action params = Ret p ->
  daemon w (List.length (calls w)) (mk_request (serverUrl self) p)
    = HttpReply (Some (PDict d)) ->
  let w' := sent w (mk_request (serverUrl self) p) in
  (forall onFail,
      dict_get "error" d = None ->
      _post self action params onSuc onFail w = onSuc (mk_response (Some (PDict d))) w')
  /\
  (forall onFail err code message,
      dict_get "error" d = Some (PDict err) ->
      dict_get "code" err = Some code ->
      dict_get "message" err = Some message ->
      _post self action params onSuc (Some onFail) w = onFail code message w').
Proof.
  intros Hp Hd. cbv zeta. split.
  - intros onFail He. rewrite (post_request _ _ _ _ _ _ _ Hp). cbv zeta. rewrite Hd.
    cbn [resp_json resp_body contains]. now rewrite He.
  - intros onFail err code message He Hc Hm.
    rewrite (post_request _ _ _ _ _ _ _ Hp). cbv zeta. rewrite Hd.
    cbn [resp_json resp_body contains getitem obind]. rewrite He.
    cbn [obind getitem]. now rewrite Hc, Hm.
Qed.

Lemma post_dispatch_witness :
  let api := Aria2cHomeassistant_init "localhost" DEFAULT_PORT (Some "secret") in
  let err := [("code", PInt 1); ("message", PStr "Unauthorized")] in
  let w := fresh_world (fun _ _ => HttpReply (Some (PDict [("error", PDict err)]))) in
  let onFail code message := ret (PList [code; message]) in
  _post api (GET_VER api) [] (fun _ => ret PNone) (Some onFail) w
    = (Ret (PList [PInt 1; PStr "Unauthorized"]),
       sent w (plain_request api (GET_VER api) "secret")).
Proof.
  intros api err w onFail.
  exact (proj2 (post_dispatch api (GET_VER api) [] (fun _ => ret PNone) w _
                  [("error", PDict err)] eq_refl eq_refl)
           onFail err (PInt 1) (PStr "Unauthorized") eq_refl eq_refl eq_refl).
Defined.

(** X5. The key ["error"] is tested for presence, not for its value: a
    response object whose ["error"] member is anything but an object (for
    instance [null] beside a ["result"], as JSON-RPC 1.0 has it) makes
    [_post] raise [TypeError], whatever the handlers and whatever else the
    response holds. *)
Theorem post_error_not_object self action params onSuc onFail w p d v :
  call_genPayload self action params = Ret p ->
  daemon w (List.length (calls w)) (mk_request (serverUrl self) p)
    = HttpReply (Some (PDict d)) ->
  dict_get "error" d = Some v ->
  (forall err, v <> PDict err) ->
  exists msg,
    _post self action params onSuc onFail w
      = (Raise (TypeError msg), sent w (mk_request (serverUrl self) p)).
Proof.
  intros Hp Hd He Hv. rewrite (post_request _ _ _ _ _ _ _ Hp). cbv zeta. rewrite Hd.
  cbn [resp_json resp_body contains getitem obind]. rewrite He. cbn [obind].
  destruct v; try (eexists; reflexivity). now elim (Hv d0).
Qed.

Lemma post_error_not_object_witness :
  let api := Aria2cHomeassistant_init "localhost" DEFAULT_PORT (Some "secret") in
  let reply := PDict [("result", PDict [("version", PStr "1.36.0")]); ("error", PNone)] in
  let w := fresh_world (fun _ _ => HttpReply (Some reply)) in
  exists msg, getVer api w
              = (Raise (TypeError msg), sent w (plain_request api (GET_VER api) "secret")).
Proof.
  intros api reply w. unfold getVer.
  eapply post_error_not_object with (v := PNone);
    [reflexivity | reflexivity | reflexivity | discriminate].
Defined.

(** ** The operations of the client *)

(** Every operation is [_post] without parameters, with a success handler
    that only reads the response and the default failure handler; on a
    response that is no object, the handler raises [TypeError]. *)
Lemma client_ops_post op action :
  In (op, action) client_ops ->
  exists f : response -> outcome pyval,
    (forall self, op self = _post self (action self) [] (fun r => pure (f r)) None)
    /\ (forall j, (forall d, j <> PDict d) ->
                  exists msg, f (mk_response (Some j)) = Raise (TypeError msg)).
Proof.
  intros H. unfold client_ops in H. cbn [In] in H.
  repeat (destruct H as [H | H]; [injection H as <- <- |]); [.. | contradiction];
    (eexists; split; [intros self; reflexivity |]);
    intros j Hj; unfold result_field; cbn [resp_json resp_body obind];
    (destruct j; try (eexists; reflexivity); now elim (Hj d)).
Qed.

Lemma grows_refl n w : grows n w w.
Proof.
  repeat split; try reflexivity.
  - exists []. split; [now rewrite app_nil_r | cbn; lia].
  - exists []. now rewrite app_nil_r.
Qed.

Lemma grows_sent n w rq : grows (S n) w (sent w rq).
Proof.
  repeat split; try reflexivity.
  - exists [rq]. split; [reflexivity | cbn; lia].
  - exists []. cbn. now rewrite app_nil_r.
Qed.

Lemma grows_output n w w' o :
  grows n w w' -> grows n w (with_output w' (output w' ++ o)%list).
Proof.
  intros (Hn & Hd & Hv & Hc & [o' Ho]). repeat split; try assumption.
  exists (o' ++ o)%list. cbn. now rewrite Ho, app_assoc.
Qed.

Lemma grows_trans n m w1 w2 w3 :
  grows n w1 w2 -> grows m w2 w3 -> grows (n + m) w1 w3.
Proof.
  intros (Hn & Hd & Hv & [l [Hl Hll]] & [o Ho]) (Hn' & Hd' & Hv' & [l' [Hl' Hll']] & [o' Ho']).
  repeat split; try congruence.
  - exists (l ++ l')%list. split.
    + now rewrite Hl', Hl, app_assoc.
    + rewrite length_app. lia.
  - exists (o ++ o')%list. now rewrite Ho', Ho, app_assoc.
Qed.

Lemma grows_le n m w w' : (n <= m)%nat -> grows n w w' -> grows m w w'.
Proof.
  intros Hle (Hn & Hd & Hv & [l [Hl Hll]] & Ho). repeat split; try assumption.
  exists l. split; [assumption | lia].
Qed.

(** A call of [_post] whose success handler only reads the response makes at
    most one network call and leaves the throttle slot alone. *)
Lemma post_pure_grows self action (f : response -> outcome pyval) w :
  grows 1 w (snd (_post self action [] (fun r => pure (f r)) None w))
  /\ _THROTTLED_REFRESH (snd (_post self action [] (fun r => pure (f r)) None w))
     = _THROTTLED_REFRESH w.
Proof.
  destruct (call_genPayload self action []) as [p | e] eqn:Hp.
  - rewrite (post_request _ _ _ _ _ _ _ Hp). cbv zeta.
    set (rq := mk_request (serverUrl self) p).
    pose proof (grows_sent 0 w rq) as G.
    pose proof (grows_output 1 w (sent w rq)
                  [Printed "ERROR: {}, {}" [PNone; PNone]] G) as _.
    destruct (daemon w _ rq) as [e | body]; [now split |].
    destruct (resp_json _) as [result |]; [| now split].
    destruct (contains "error" result) as [[|] |]; [| now split | now split].
    destruct (obind (getitem result "error") (fun e => getitem e "code")) as [code |];
      [| now split].
    destruct (obind (getitem result "error") (fun e => getitem e "message")) as [message |];
      [| now split].
    split; [| reflexivity].
    exact (grows_output 1 w (sent w rq) [Printed "ERROR: {}, {}" [code; message]] G).
  - rewrite (post_no_request _ _ _ _ _ _ _ Hp). split; [apply grows_refl | reflexivity].
Qed.

(** X6. Each of the five operations of the client ([getVer],
    [getDownloadSpeed], [getUpSpeed], [getActive], [getUnfinishedTasks])
    makes exactly one network call when the client has a token, whatever the
    daemon answers: a POST to the server URL of the method of the operation
    with the token as only parameter, so that the four statistics operations
    send the same request. Without a token it makes none and raises
    [TypeError]. In every case the earlier calls and output are kept and the
    clock, the registered entities and the throttle slot are not touched. *)
Theorem client_ops_one_request op action self w :
  In (op, action) client_ops ->
  (forall tok, token self = Some tok ->
               calls (snd (op self w))
               = (calls w ++ [plain_request self (action self) tok])%list)
  /\ (token self = None ->
      op self w = (Raise (TypeError (concat_error "NoneType")), w))
  /\ grows 1 w (snd (op self w))
  /\ _THROTTLED_REFRESH (snd (op self w)) = _THROTTLED_REFRESH w.
Proof.
  intros Hin. destruct (client_ops_post op action Hin) as (f & Hop & _). rewrite Hop.
  split; [| split; [| apply post_pure_grows]].
  - intros tok Ht.
    rewrite (post_request _ _ _ _ _ _ _ (genPayload_token self (action self) tok Ht)).
    cbv zeta. fold (plain_request self (action self) tok).
    destruct (daemon w _ _) as [e | body]; [reflexivity |].
    destruct (resp_json _) as [result |]; [| reflexivity].
    destruct (contains "error" result) as [[|] |]; try reflexivity.
    destruct (obind (getitem result "error") (fun e => getitem e "code")); [| reflexivity].
    destruct (obind (getitem result "error") (fun e => getitem e "message")); reflexivity.
  - intros Ht. apply post_no_request.
    unfold call_genPayload, _genPayload, token_value. now rewrite Ht.
Qed.

Lemma client_ops_one_request_witness :
  let api := Aria2cHomeassistant_init "localhost" DEFAULT_PORT (Some "secret") in
  let w := fresh_world (fun _ _ => HttpReply None) in
  calls (snd (getUpSpeed api w)) = [plain_request api "aria2.getGlobalStat" "secret"]
  /\ calls (snd (getUnfinishedTasks api w)) = calls (snd (getUpSpeed api w)).
Proof.
  intros api w. split.
  - exact (proj1 (client_ops_one_request getUpSpeed GET_STATUS api w
                    (or_intror (or_intror (or_introl eq_refl)))) "secret" eq_refl).
  - reflexivity.
Defined.

(** X7. [getVer], [getDownloadSpeed], [getUpSpeed] and [getActive] return
    the member [version], [downloadSpeed], [uploadSpeed], [numActive] of the
    result as the daemon sent it, without converting it: a string stays a
    string. When the result lacks the member, or the response lacks the
    result, they raise [KeyError] with the missing key. *)
Theorem field_ops_return_member op action field self w tok d :
  In (op, action, field) field_ops ->
  token self = Some tok ->
  daemon w (List.length (calls w)) (plain_request self (action self) tok)
    = HttpReply (Some (PDict d)) ->
  dict_get "error" d = None ->
  (forall res x, dict_get "result" d = Some (PDict res) -> dict_get field res = Some x ->
                 fst (op self w) = Ret x)
  /\ (forall res, dict_get "result" d = Some (PDict res) -> dict_get field res = None ->
                  fst (op self w) = Raise (KeyError field))
  /\ (dict_get "result" d = None -> fst (op self w) = Raise (KeyError "result")).
Proof.
  intros Hin Ht Hd He.
  assert (op self w =
            (obind (getitem (PDict d) "result") (fun r => getitem r field),
             sent w (plain_request self (action self) tok))) as ->.
  { unfold field_ops in Hin. cbn [In] in Hin.
    repeat (destruct Hin as [Hin | Hin]; [injection Hin as <- <- <- |]); [.. | contradiction];
      match goal with |- ?g self w = _ => unfold g end;
      rewrite (post_request _ _ _ _ _ _ _ (genPayload_token self _ tok Ht));
      cbv zeta; fold (plain_request self (GET_VER self) tok);
      fold (plain_request self (GET_STATUS self) tok); rewrite Hd;
      cbn [resp_json resp_body contains]; rewrite He; reflexivity. }
  cbn [fst getitem]. repeat split.
  - intros res x Hr Hf. rewrite Hr. cbn [obind getitem]. now rewrite Hf.
  - intros res Hr Hf. rewrite Hr. cbn [obind getitem]. now rewrite Hf.
  - intros Hr. now rewrite Hr.
Qed.

Lemma field_ops_return_member_witness :
  let api := Aria2cHomeassistant_init "localhost" DEFAULT_PORT (Some "secret") in
  let d := [("result", PDict [("downloadSpeed", PStr "52428")])] in
  let w := fresh_world (fun _ _ => HttpReply (Some (PDict d))) in
  fst (getDownloadSpeed api w) = Ret (PStr "52428")
  /\ fst (getActive api w) = Raise (KeyError "numActive").
Proof.
  intros api d w. split.
  - exact (proj1 (field_ops_return_member getDownloadSpeed GET_STATUS "downloadSpeed"
                    api w "secret" d (or_intror (or_introl eq_refl))
                    eq_refl eq_refl eq_refl)
             _ (PStr "52428") eq_refl eq_refl).
  - exact (proj1 (proj2 (field_ops_return_member getActive GET_STATUS "numActive"
                           api w "secret" d
                           (or_intror (or_intror (or_intror (or_introl eq_refl))))
                           eq_refl eq_refl eq_refl))
             _ eq_refl eq_refl).
Defined.

(** X8. A reply that is not a JSON object makes every operation of the
    client raise: a body that is not JSON raises the decoding error, an
    instance of [ValueError]; a JSON value that is no object (a number, a
    string, an array, [null]) raises [TypeError]. *)
Theorem client_ops_malformed_reply op action self w tok :
  In (op, action) client_ops ->
  token self = Some tok ->
  (daemon w (List.length (calls w)) (plain_request self (action self) tok) = HttpReply None ->
   exists e, fst (op self w) = Raise e /\ isinstance e "ValueError" = true)
  /\ (forall j,
         daemon w (List.length (calls w)) (plain_request self (action self) tok)
           = HttpReply (Some j) ->
         (forall d, j <> PDict d) ->
         exists msg, fst (op self w) = Raise (TypeError msg)).
Proof.
  intros Hin Ht. destruct (client_ops_post op action Hin) as (f & Hop & Hf). rewrite Hop.
  rewrite (post_request _ _ _ _ _ _ _ (genPayload_token self (action self) tok Ht)).
  cbv zeta. fold (plain_request self (action self) tok). split.
  - intros ->. cbn [resp_json resp_body fst]. eexists. split; reflexivity.
  - intros j -> Hj. cbn [resp_json resp_body].
    destruct (Hf j Hj) as [msg Hm].
    destruct j; try (eexists; reflexivity); try (now elim (Hj d)).
    + (* a string: the substring test decides, both branches raise *)
      cbn [contains]. destruct (is_substring "error" s); [eexists; reflexivity |].
      unfold pure. rewrite Hm. now exists msg.
    + (* an array *)
      cbn [contains]. destruct (existsb _ l); [eexists; reflexivity |].
      unfold pure. rewrite Hm. now exists msg.
Qed.

Lemma client_ops_malformed_reply_witness :
  let api := Aria2cHomeassistant_init "localhost" DEFAULT_PORT (Some "secret") in
  let w := fresh_world (fun _ _ => HttpReply (Some (PList [PStr "error"]))) in
  exists msg, fst (getUnfinishedTasks api w) = Raise (TypeError msg).
Proof.
  intros api w.
  apply (proj2 (client_ops_malformed_reply getUnfinishedTasks GET_STATUS api w "secret"
                  (or_intror (or_intror (or_intror (or_intror (or_introl eq_refl)))))
                  eq_refl)
           (PList [PStr "error"]) eq_refl).
  discriminate.
Defined.

(** ** More on [update] *)

(** X9. The counting sensors. For a sensor of type [active] the update sets
    the state to the integer [numActive] of the global-stat response, and
    for a sensor of type [unfinished_tasks] to the sum of [numActive] and
    [numWaiting], for all non-negative counts sent as decimal strings or as
    numbers; the state is an integer, not the string that was sent. *)
Theorem count_sensor_update
    (self : Aria2cSensor) (w : world) client p d res (a b : Z) (ra rb : pyval) :
  aria2c_client self = Some client ->
  fst (refresh_aria2c_data self w) = Ret tt ->
  call_genPayload client (GET_STATUS client) [] = Ret p ->
  daemon (snd (refresh_aria2c_data self w))
    (List.length (calls (snd (refresh_aria2c_data self w))))
    (mk_request (serverUrl client) p) = HttpReply (Some (PDict d)) ->
  dict_get "error" d = None ->
  dict_get "result" d = Some (PDict res) ->
  dict_get "numActive" res = Some ra ->
  0 <= a -> int_repr a ra ->
  let w' := sent (snd (refresh_aria2c_data self w)) (mk_request (serverUrl client) p) in
  (type self = "active" ->
   update (self, w) = (Ret tt, (set_state self (PInt a), w')))
  /\
  (type self = "unfinished_tasks" ->
   dict_get "numWaiting" res = Some rb -> 0 <= b -> int_repr b rb ->
   update (self, w) = (Ret tt, (set_state self (PInt (a + b)), w'))).
Proof.
  intros Hc Href Hp Hd He Hr Ha Hna Hra. cbv zeta.
  assert (update (self, w) = update_metric self (self, snd (refresh_aria2c_data self w)))
    as ->.
  { unfold update, bind, gets, in_world. cbn [fst snd].
    destruct (refresh_aria2c_data self w) as [r w1]. cbn [fst snd] in *. now subst r. }
  destruct (refresh_aria2c_data self w) as [r w1]. cbn [fst snd] in *. subst r.
  unfold update_metric. rewrite Hc. split.
  - intros Ht. rewrite Ht. cbn [String.eqb Ascii.eqb Bool.eqb].
    unfold bind, in_world, pure, assign_state, modify, getActive. cbn [fst snd].
    rewrite (post_request _ _ _ _ _ _ _ Hp). cbv zeta. rewrite Hd.
    cbn [resp_json resp_body contains]. rewrite He.
    unfold pure, result_field. cbn [resp_json resp_body obind getitem]. rewrite Hr.
    cbn [obind getitem]. rewrite Ha.
    now rewrite (py_int_repr a ra Hna Hra).
  - intros Ht Hb Hnb Hrb. rewrite Ht. cbn [String.eqb Ascii.eqb Bool.eqb].
    unfold bind, in_world, pure, assign_state, modify, getUnfinishedTasks. cbn [fst snd].
    rewrite (post_request _ _ _ _ _ _ _ Hp). cbv zeta. rewrite Hd.
    cbn [resp_json resp_body contains]. rewrite He.
    unfold pure, result_field. cbn [resp_json resp_body obind getitem]. rewrite Hr.
    cbn [obind getitem]. rewrite Ha, Hb.
    unfold obind at 2. rewrite (py_int_repr a ra Hna Hra). cbn [obind].
    now rewrite (py_int_repr b rb Hnb Hrb).
Qed.

Lemma count_sensor_update_witness :
  let api := Aria2cHomeassistant_init "localhost" DEFAULT_PORT (Some "secret") in
  let active := mk_sensor (PStr "Active") (Some api) "active" "Aria2c" (PStr "Tasks") PNone in
  let unfinished := mk_sensor (PStr "Unfinished Tasks") (Some api) "unfinished_tasks"
                      "Aria2c" (PStr "Tasks") PNone in
  let res := [("numActive", PStr "3"); ("numWaiting", PStr "14")] in
  let w := fresh_world (fun _ _ => HttpReply (Some (PDict [("result", PDict res)]))) in
  _state (fst (snd (update (active, w)))) = PInt 3
  /\ _state (fst (snd (update (unfinished, w)))) = PInt 17.
Proof.
  intros api active unfinished res w.
  pose (p := PDict [("jsonrpc", PStr "2.0"); ("id", PStr "pyaria2c");
                    ("method", PStr "aria2.getGlobalStat");
                    ("params", PList [PStr "token:secret"])]).
  split.
  - rewrite (proj1 (count_sensor_update active w api p [("result", PDict res)] res
                      3 0 (PStr "3") PNone eq_refl eq_refl eq_refl eq_refl eq_refl
                      eq_refl eq_refl ltac:(lia) (or_introl eq_refl)) eq_refl).
    reflexivity.
  - rewrite (proj2 (count_sensor_update unfinished w api p [("result", PDict res)] res
                      3 14 (PStr "3") (PStr "14") eq_refl eq_refl eq_refl eq_refl eq_refl
                      eq_refl eq_refl ltac:(lia) (or_introl eq_refl))
               eq_refl eq_refl ltac:(lia) (or_introl eq_refl)).
    reflexivity.
Defined.

(** X10. A sensor without client (the attribute is [None]) only runs the
    refresh step on update: the outcome and the world are those of the
    refresh, no metric is fetched and the sensor is unchanged, whatever its
    type. *)
Theorem update_without_client (self : Aria2cSensor) (w : world) :
  aria2c_client self = None ->
  update (self, w)
    = (fst (refresh_aria2c_data self w), (self, snd (refresh_aria2c_data self w))).
Proof.
  intros Hc. unfold update, bind, gets, in_world. cbn [fst snd].
  destruct (refresh_aria2c_data self w) as [[[] | e] w1]; cbn [fst snd]; [| reflexivity].
  unfold update_metric. now rewrite Hc.
Qed.

Lemma update_without_client_witness :
  let s := mk_sensor (PStr "Active") None "active" "Aria2c" (PStr "Tasks") PNone in
  let w := fresh_world (fun _ _ => HttpReply None) in
  update (s, w) = (Ret tt, (s, w)).
Proof.
  intros s w. exact (update_without_client s w eq_refl).
Defined.

(** X11. An update that raises has not touched the sensor: every attribute,
    the cached state included, is as before, whatever failed (the refresh,
    the call, the lookup of the member or the conversion of its value). *)
Theorem update_exception_safe (self : Aria2cSensor) (w : world) :
  is_raise (fst (update (self, w))) = true ->
  fst (snd (update (self, w))) = self.
Proof.
  exact (update_raise (self, w)).
Qed.

Lemma update_exception_safe_witness :
  let api := Aria2cHomeassistant_init "localhost" DEFAULT_PORT (Some "secret") in
  let s := mk_sensor (PStr "Down Speed") (Some api) "download_speed" "Aria2c"
             (PStr "MB/s") (PFloat (float_of_Z 2)) in
  let res := [("downloadSpeed", PStr "fast")] in
  let w := fresh_world (fun _ _ => HttpReply (Some (PDict [("result", PDict res)]))) in
  fst (update (s, w)) = Raise (ValueError "could not convert string to float")
  /\ fst (snd (update (s, w))) = s.
Proof.
  intros api s res w. split; [reflexivity |].
  exact (update_exception_safe s w eq_refl).
Defined.

(** X12. The number of decimal places of a speed state depends on the raw
    value alone: a raw value of at most 104857 bytes per second is reported
    with two places, a larger one with one place. *)
Theorem speed_state_places (v : Z) :
  0 <= v ->
  speed_state (PStr (string_of_Z v)) =
    Ret (PFloat (py_round (float_div (float_of_Z v) (float_of_Z 1048576))
                   (if v <? 104858 then 2 else 1))).
Proof.
  intros Hv. now rewrite (speed_state_decimal v Hv), (speed_spec_threshold v Hv).
Qed.

Lemma speed_state_places_witness :
  speed_state (PStr "104857") = Ret (PFloat (float_of_decimal false 10 (-2)))
  /\ speed_state (PStr "104858") = Ret (PFloat (float_of_decimal false 1 (-1))).
Proof.
  split.
  - change "104857" with (string_of_Z 104857).
    rewrite (speed_state_places 104857 ltac:(lia)). vm_compute. reflexivity.
  - change "104858" with (string_of_Z 104858).
    rewrite (speed_state_places 104858 ltac:(lia)). vm_compute. reflexivity.
Defined.

(** ** What an update does to the world *)

Lemma grows_with_throttle n w w' t : grows n w w' -> grows n w (with_throttle w' t).
Proof. intros (Hn & Hd & Hv & Hc & Ho). now repeat split. Qed.

Lemma grows_from_throttle n w w' t : grows n (with_throttle w t) w' -> grows n w w'.
Proof. intros (Hn & Hd & Hv & Hc & Ho). now repeat split. Qed.

Lemma getVer_grows self w : grows 1 w (snd (getVer self w)).
Proof. apply post_pure_grows. Qed.

Lemma throttled_call_grows thr w : grows 1 w (snd (throttled_call thr w)).
Proof.
  unfold throttled_call.
  destruct (match thr_last thr with Some t0 => now w - t0 <? thr_min_time thr | None => false end);
    [apply grows_refl |].
  set (w0 := with_throttle w _).
  pose proof (grows_from_throttle 1 w _ _ (getVer_grows (thr_self thr) w0)) as G.
  destruct (getVer (thr_self thr) w0) as [[v | e] w']; cbn [snd] in *;
    [now apply grows_with_throttle | assumption].
Qed.

Lemma refresh_grows self w : grows 1 w (snd (refresh_aria2c_data self w)).
Proof.
  unfold refresh_aria2c_data, bind at 1, gets.
  destruct (_THROTTLED_REFRESH w) as [thr |]; [| apply grows_refl].
  unfold try_except, bind. pose proof (throttled_call_grows thr w) as G.
  destruct (throttled_call thr w) as [[v | e] w']; cbn [snd] in *; [assumption |].
  destruct (isinstance e "ConnectionError"); [| assumption].
  exact (grows_output 1 w w' _ G).
Qed.

(** The shape of every branch of the metric block: fetch, convert, assign. *)
Lemma fetch_grows {B} (c : M world pyval) (conv : pyval -> outcome B) (mk : B -> pyval) sw :
  grows 1 (snd sw) (snd (c (snd sw))) ->
  grows 1 (snd sw)
    (snd (snd ((raw <- in_world c ;; x <- pure (conv raw) ;; assign_state (mk x)) sw))).
Proof.
  intros G. unfold bind, in_world, pure, assign_state, modify.
  destruct (c (snd sw)) as [[raw | e] w1]; cbn [fst snd] in *; [| assumption].
  now destruct (conv raw).
Qed.

Lemma update_metric_grows self sw :
  grows 1 (snd sw) (snd (snd (update_metric self sw))).
Proof.
  unfold update_metric.
  destruct (aria2c_client self) as [client |]; [| apply grows_refl].
  destruct (type self =? "download_speed")%string.
  { apply (fetch_grows (getDownloadSpeed client) speed_state (fun st => st)).
    apply post_pure_grows. }
  destruct (type self =? "upload_speed")%string.
  { apply (fetch_grows (getUpSpeed client) speed_state (fun st => st)).
    apply post_pure_grows. }
  destruct (type self =? "active")%string.
  { apply (fetch_grows (getActive client) py_int PInt). apply post_pure_grows. }
  destruct (type self =? "unfinished_tasks")%string.
  { apply (fetch_grows (getUnfinishedTasks client) py_int PInt). apply post_pure_grows. }
  apply grows_refl.
Qed.

(** X13. An update only adds to the world. After the refresh step it makes
    at most one network call; with the refresh step, which makes at most one
    when the throttle is as the specification describes it, at most two. The
    calls and the output recorded before are kept, in front of the new ones,
    and the clock, the daemon and the registered entities are not touched. *)
Theorem update_grows (self : Aria2cSensor) (w : world) :
  grows 1 (snd (refresh_aria2c_data self w)) (snd (snd (update (self, w))))
  /\ grows 2 w (snd (snd (update (self, w)))).
Proof.
  assert (grows 1 (snd (refresh_aria2c_data self w)) (snd (snd (update (self, w))))) as G.
  { unfold update, bind, gets, in_world. cbn [fst snd].
    destruct (refresh_aria2c_data self w) as [[[] | e] w1]; cbn [fst snd];
      [| apply grows_refl].
    exact (update_metric_grows self (self, w1)). }
  split; [exact G |].
  exact (grows_trans 1 1 _ _ _ (refresh_grows self w) G).
Qed.

(** ** The construction of a sensor *)

Lemma Aria2cSensor_init_known Tasks t c n :
  known_type t = true ->
  exists label unit,
    getitem (SENSOR_TYPES Tasks) t = Ret (PList [PStr label; unit])
    /\ Aria2cSensor_init Tasks t c n = Ret (mk_sensor (PStr label) c t n unit PNone).
Proof.
  unfold known_type. intros H.
  repeat (apply orb_true_iff in H; destruct H as [H | H]);
    apply String.eqb_eq in H; subst t; eexists _, _; split; reflexivity.
Qed.

Lemma Aria2cSensor_init_unknown Tasks t c n :
  known_type t = false ->
  Aria2cSensor_init Tasks t c n = Raise (KeyError t).
Proof.
  unfold known_type. intros H.
  repeat (apply orb_false_iff in H; destruct H as [H ?]).
  unfold Aria2cSensor_init, SENSOR_TYPES, getitem. cbn [dict_get].
  now repeat match goal with E : (_ =? _)%string = false |- _ => rewrite E; clear E end.
Qed.

(** X14. A sensor can be built for the four types of the table and for no
    other: for one of them the constructor takes the label and the unit from
    the entry of the type and starts with the state [None]; for any other
    type it raises [KeyError] with the type as key. *)
Theorem sensor_init_by_type Tasks t c n :
  (known_type t = true ->
   exists label unit,
     getitem (SENSOR_TYPES Tasks) t = Ret (PList [PStr label; unit])
     /\ Aria2cSensor_init Tasks t c n = Ret (mk_sensor (PStr label) c t n unit PNone))
  /\ (known_type t = false -> Aria2cSensor_init Tasks t c n = Raise (KeyError t)).
Proof.
  split; [apply Aria2cSensor_init_known | apply Aria2cSensor_init_unknown].
Qed.

Lemma sensor_init_by_type_witness :
  Aria2cSensor_init (PStr "Tasks") "Download_Speed" None "Aria2c"
    = Raise (KeyError "Download_Speed").
Proof.
  exact (proj2 (sensor_init_by_type (PStr "Tasks") "Download_Speed" None "Aria2c") eq_refl).
Defined.

(** X15. The display name of a sensor built by the constructor is the
    client name, a space and the label of its type: [Active], [Down Speed],
    [Up Speed] or [Unfinished Tasks]. *)
Theorem sensor_name (py_str : pyval -> string) Tasks t c n s :
  (forall x, py_str (PStr x) = x) ->
  Aria2cSensor_init Tasks t c n = Ret s ->
  exists label,
    name py_str s = n ++ " " ++ label
    /\ In (t, label) [("active", "Active"); ("download_speed", "Down Speed");
                      ("upload_speed", "Up Speed"); ("unfinished_tasks", "Unfinished Tasks")].
Proof.
  intros Hstr Hinit.
  destruct (known_type t) eqn:Hk;
    [| rewrite (Aria2cSensor_init_unknown Tasks t c n Hk) in Hinit; discriminate].
  unfold known_type in Hk.
  repeat (apply orb_true_iff in Hk; destruct Hk as [Hk | Hk]);
    apply String.eqb_eq in Hk; subst t; injection Hinit as <-;
    unfold name; cbn [client_name _name]; rewrite !Hstr;
    eexists; (split; [reflexivity |]); cbn [In]; auto 6.
Qed.

Lemma sensor_name_witness :
  let py_str v := match v with PStr x => x | _ => "" end in
  let s := mk_sensor (PStr "Up Speed") None "upload_speed" "Aria2c" (PStr "MB/s") PNone in
  name py_str s = "Aria2c Up Speed"
  /\ exists label,
       name py_str s = "Aria2c" ++ " " ++ label
       /\ In ("upload_speed", label)
            [("active", "Active"); ("download_speed", "Down Speed");
             ("upload_speed", "Up Speed"); ("unfinished_tasks", "Unfinished Tasks")].
Proof.
  intros py_str s. split; [reflexivity |].
  exact (sensor_name py_str (PStr "Tasks") "upload_speed" None "Aria2c" s
           (fun x => eq_refl) eq_refl).
Defined.

(** ** More on [setup_platform] *)

(** Once the probe has returned, setup installs the throttle and builds the
    sensors; it registers them only if all could be built. *)
Lemma setup_after_probe Tasks config w tok v w1 :
  CONF_TOKEN config = Some tok ->
  let api := Aria2cHomeassistant_init (CONF_HOST config) (CONF_PORT config) (Some tok) in
  let thr := Throttle_wrap (timedelta_seconds 1) api in
  getVer api w = (Ret v, w1) ->
  setup_platform Tasks config w =
    match make_devices Tasks (CONF_MONITORED_VARIABLES config) api (CONF_NAME config) with
    | Ret dev => (Ret PNone,
                  with_devices (with_throttle w1 (Some thr)) (devices w1 ++ dev)%list)
    | Raise e => (Raise e, with_throttle w1 (Some thr))
    end.
Proof.
  intros Ht api thr Hg. unfold setup_platform. rewrite Ht. fold api.
  unfold bind at 1, try_except, bind at 1. rewrite Hg. cbv iota beta.
  unfold ret at 1. cbv iota beta.
  unfold bind, modify, pure, add_devices, ret.
  now destruct (make_devices _ _ _ _).
Qed.

Lemma make_devices_known Tasks vars api n :
  forallb known_type vars = true ->
  exists dev,
    make_devices Tasks vars api n = Ret dev
    /\ map type dev = vars
    /\ Forall (fun s => _state s = PNone /\ aria2c_client s = Some api /\ client_name s = n)
         dev.
Proof.
  induction vars as [| t vars IH]; intros H.
  - exists []. now repeat split.
  - cbn [forallb] in H. apply andb_true_iff in H. destruct H as [Ht Hv].
    destruct (IH Hv) as (dev & Hd & Hm & Hf).
    destruct (Aria2cSensor_init_known Tasks t (Some api) n Ht) as (label & unit & _ & Hi).
    eexists. cbn [make_devices]. rewrite Hi, Hd. cbn [obind].
    split; [reflexivity |]. split; [cbn; now rewrite Hm |].
    constructor; [now repeat split | assumption].
Qed.

Lemma make_devices_unknown Tasks good bad rest api n :
  forallb known_type good = true ->
  known_type bad = false ->
  make_devices Tasks (good ++ bad :: rest) api n = Raise (KeyError bad).
Proof.
  induction good as [| t good IH]; intros Hg Hb.
  - cbn [app make_devices]. now rewrite (Aria2cSensor_init_unknown Tasks bad _ n Hb).
  - cbn [forallb] in Hg. apply andb_true_iff in Hg. destruct Hg as [Ht Hg].
    destruct (Aria2cSensor_init_known Tasks t (Some api) n Ht) as (label & unit & _ & Hi).
    change ((t :: good) ++ bad :: rest)%list with (t :: (good ++ bad :: rest))%list.
    cbn [make_devices]. rewrite Hi. cbn [obind]. now rewrite (IH Hg Hb).
Qed.

(** X16. When the configuration has a token, the probe returns and every
    monitored variable is a type of the table, [setup_platform] returns
    [None], has made the one network call of the probe, leaves in the slot a
    throttle of one second around the probe of the new client, not yet
    invoked, and registers one sensor per monitored variable, in the order
    of the configuration, each of the type of its variable, with the state
    [None], the new client and the configured name. *)
Theorem setup_registers_sensors Tasks config w tok :
  CONF_TOKEN config = Some tok ->
  let api := Aria2cHomeassistant_init (CONF_HOST config) (CONF_PORT config) (Some tok) in
  is_raise (fst (getVer api w)) = false ->
  forallb known_type (CONF_MONITORED_VARIABLES config) = true ->
  let w' := snd (setup_platform Tasks config w) in
  fst (setup_platform Tasks config w) = Ret PNone
  /\ calls w' = (calls w ++ [plain_request api (GET_VER api) tok])%list
  /\ _THROTTLED_REFRESH w' = Some (mk_throttle api (timedelta_seconds 1) None PNone)
  /\ exists dev,
       devices w' = (devices w ++ dev)%list
       /\ map type dev = CONF_MONITORED_VARIABLES config
       /\ Forall (fun s => _state s = PNone /\ aria2c_client s = Some api
                           /\ client_name s = CONF_NAME config) dev.
Proof.
  intros Ht api Hprobe Hvars. cbv zeta.
  destruct (getVer_effect api tok w eq_refl) as (Hc & _ & _).
  destruct (getVer_grows api w) as (_ & _ & Hdev & _).
  destruct (getVer api w) as [[v | e] w1] eqn:Hg; [| discriminate Hprobe].
  cbn [snd] in Hc, Hdev.
  rewrite (setup_after_probe Tasks config w tok v w1 Ht Hg). fold api.
  destruct (make_devices_known Tasks (CONF_MONITORED_VARIABLES config) api
              (CONF_NAME config) Hvars) as (dev & -> & Hm & Hf).
  cbn [fst snd calls _THROTTLED_REFRESH devices with_devices with_throttle].
  repeat split; try assumption.
  exists dev. rewrite Hdev. now repeat split.
Qed.

Lemma setup_registers_sensors_witness :
  let config := mk_config DEFAULT_NAME "localhost" DEFAULT_PORT (Some "secret")
                  ["upload_speed"; "active"] in
  let version := PDict [("result", PDict [("version", PStr "1.36.0")])] in
  let w := fresh_world (fun _ _ => HttpReply (Some version)) in
  fst (setup_platform (PStr "Tasks") config w) = Ret PNone
  /\ map type (devices (snd (setup_platform (PStr "Tasks") config w)))
     = ["upload_speed"; "active"].
Proof.
  intros config version w.
  destruct (setup_registers_sensors (PStr "Tasks") config w "secret"
              eq_refl eq_refl eq_refl) as (Hr & _ & _ & dev & Hd & Hm & _).
  split; [exact Hr |]. rewrite Hd. exact Hm.
Defined.

(** X17. An RPC-level error at the probe does not stop setup: when the
    daemon answers the probe with an error object (a rejected token, for
    instance), the error is printed, and [setup_platform] goes on to install
    the throttle and to register the sensors, and returns [None]. *)
Theorem setup_continues_on_rpc_error Tasks config w tok d err code message :
  CONF_TOKEN config = Some tok ->
  let api := Aria2cHomeassistant_init (CONF_HOST config) (CONF_PORT config) (Some tok) in
  daemon w (List.length (calls w)) (plain_request api (GET_VER api) tok)
    = HttpReply (Some (PDict d)) ->
  dict_get "error" d = Some (PDict err) ->
  dict_get "code" err = Some code ->
  dict_get "message" err = Some message ->
  forallb known_type (CONF_MONITORED_VARIABLES config) = true ->
  let w' := snd (setup_platform Tasks config w) in
  fst (setup_platform Tasks config w) = Ret PNone
  /\ output w' = (output w ++ [Printed "ERROR: {}, {}" [code; message]])%list
  /\ _THROTTLED_REFRESH w' = Some (mk_throttle api (timedelta_seconds 1) None PNone)
  /\ List.length (devices w')
     = (List.length (devices w) + List.length (CONF_MONITORED_VARIABLES config))%nat.
Proof.
  intros Ht api Hd He Hc Hm Hvars. cbv zeta.
  assert (getVer api w =
            (Ret PNone,
             with_output (sent w (plain_request api (GET_VER api) tok))
               (output w ++ [Printed "ERROR: {}, {}" [code; message]])%list)) as Hg.
  { unfold getVer.
    rewrite (post_request _ _ _ _ _ _ _ (genPayload_token api (GET_VER api) tok eq_refl)).
    cbv zeta. fold (plain_request api (GET_VER api) tok). rewrite Hd.
    cbn [resp_json resp_body contains getitem obind]. rewrite He.
    cbn [obind getitem]. now rewrite Hc, Hm. }
  rewrite (setup_after_probe Tasks config w tok _ _ Ht Hg). fold api.
  destruct (make_devices_known Tasks (CONF_MONITORED_VARIABLES config) api
              (CONF_NAME config) Hvars) as (dev & -> & Hmap & _).
  cbn [fst snd output _THROTTLED_REFRESH devices with_devices with_throttle with_output
       sent with_calls].
  repeat split. rewrite length_app, <- Hmap, length_map. reflexivity.
Qed.

Lemma setup_continues_on_rpc_error_witness :
  let config := mk_config DEFAULT_NAME "localhost" DEFAULT_PORT (Some "wrong")
                  ["download_speed"] in
  let err := [("code", PInt 1); ("message", PStr "Unauthorized")] in
  let w := fresh_world (fun _ _ => HttpReply (Some (PDict [("error", PDict err)]))) in
  fst (setup_platform (PStr "Tasks") config w) = Ret PNone
  /\ List.length (devices (snd (setup_platform (PStr "Tasks") config w))) = 1%nat.
Proof.
  intros config err w.
  destruct (setup_continues_on_rpc_error (PStr "Tasks") config w "wrong"
              [("error", PDict err)] err (PInt 1) (PStr "Unauthorized")
              eq_refl eq_refl eq_refl eq_refl eq_refl eq_refl) as (Hr & _ & _ & Hl).
  split; [exact Hr | exact Hl].
Defined.

(** X18. A monitored variable that is no type of the table makes
    [setup_platform] raise [KeyError] with the first such variable, after the
    probe: no sensor is registered, not even those of the variables before
    it, but the throttle is already installed. *)
Theorem setup_unknown_variable Tasks config w tok good bad rest :
  CONF_TOKEN config = Some tok ->
  let api := Aria2cHomeassistant_init (CONF_HOST config) (CONF_PORT config) (Some tok) in
  is_raise (fst (getVer api w)) = false ->
  CONF_MONITORED_VARIABLES config = (good ++ bad :: rest)%list ->
  forallb known_type good = true ->
  known_type bad = false ->
  let w' := snd (setup_platform Tasks config w) in
  fst (setup_platform Tasks config w) = Raise (KeyError bad)
  /\ devices w' = devices w
  /\ _THROTTLED_REFRESH w' = Some (mk_throttle api (timedelta_seconds 1) None PNone).
Proof.
  intros Ht api Hprobe Hvars Hgood Hbad. cbv zeta.
  destruct (getVer_grows api w) as (_ & _ & Hdev & _).
  destruct (getVer api w) as [[v | e] w1] eqn:Hg; [| discriminate Hprobe].
  cbn [snd] in Hdev.
  rewrite (setup_after_probe Tasks config w tok v w1 Ht Hg). fold api.
  rewrite Hvars, (make_devices_unknown Tasks good bad rest api _ Hgood Hbad).
  now repeat split.
Qed.

Lemma setup_unknown_variable_witness :
  let config := mk_config DEFAULT_NAME "localhost" DEFAULT_PORT (Some "secret")
                  ["active"; "progress"; "upload_speed"] in
  let version := PDict [("result", PDict [("version", PStr "1.36.0")])] in
  let w := fresh_world (fun _ _ => HttpReply (Some version)) in
  fst (setup_platform (PStr "Tasks") config w) = Raise (KeyError "progress")
  /\ devices (snd (setup_platform (PStr "Tasks") config w)) = [].
Proof.
  intros config version w.
  destruct (setup_unknown_variable (PStr "Tasks") config w "secret"
              ["active"] "progress" ["upload_speed"]
              eq_refl eq_refl eq_refl eq_refl eq_refl) as (Hr & Hd & _).
  split; [exact Hr | exact Hd].
Defined.

(** X19. For every configuration that omits the token, [setup_platform]
    raises [TypeError] before any network call: the handler of the probe
    does not catch it, nothing is logged or registered and the throttle slot
    is left as it was. *)
Theorem setup_without_token Tasks config w :
  CONF_TOKEN config = None ->
  setup_platform Tasks config w
    = (Raise (TypeError (concat_error "NoneType")), w).
Proof.
  intros Ht. unfold setup_platform. rewrite Ht.
  unfold bind at 1, try_except, bind at 1, getVer.
  now rewrite post_no_request
    with (e := TypeError (concat_error "NoneType")).
Qed.

Lemma setup_without_token_witness :
  let config := mk_config DEFAULT_NAME "localhost" DEFAULT_PORT None ["active"] in
  let w := fresh_world (fun _ _ => HttpReply None) in
  setup_platform (PStr "Tasks") config w
    = (Raise (TypeError (concat_error "NoneType")), w).
Proof.
  intros config w. exact (setup_without_token (PStr "Tasks") config w eq_refl).
Defined.

(** ** A connection failure during the refresh *)

(** X20. When the transport fails during a refresh that the throttle lets
    through, the refresh step catches the failure only if it is an instance
    of the builtin [ConnectionError]: it then logs
    [Connection to Aria2c API failed] and returns normally. Any other
    exception, that of [requests] included, leaves the refresh step, and
    with it the update, and nothing is logged. The call is recorded in both
    cases. *)
Theorem refresh_transport_failure (self : Aria2cSensor) w thr tok e :
  _THROTTLED_REFRESH w = Some thr ->
  token (thr_self thr) = Some tok ->
  due thr w = true ->
  daemon w (List.length (calls w)) (plain_request (thr_self thr) (GET_VER (thr_self thr)) tok)
    = ConnFail e ->
  let w' := snd (refresh_aria2c_data self w) in
  fst (refresh_aria2c_data self w)
    = (if isinstance e "ConnectionError" then Ret tt else Raise e)
  /\ output w'
     = (if isinstance e "ConnectionError"
        then output w ++ [LogError "Connection to Aria2c API failed" []]
        else output w)%list
  /\ calls w'
     = (calls w ++ [plain_request (thr_self thr) (GET_VER (thr_self thr)) tok])%list.
Proof.
  intros Hthr Htok Hdue Hd. cbv zeta.
  assert (refresh_aria2c_data self w =
            try_except (throttled_call thr ;; ret tt) "ConnectionError"
              (fun _ => emit (LogError "Connection to Aria2c API failed" [])) w) as ->
      by (unfold refresh_aria2c_data, bind, gets; now rewrite Hthr).
  unfold try_except, bind, throttled_call.
  assert (match thr_last thr with
          | Some t0 => now w - t0 <? thr_min_time thr
          | None => false
          end = false) as ->.
  { unfold due in Hdue. destruct (thr_last thr); [| reflexivity].
    now apply negb_true_iff in Hdue. }
  unfold getVer.
  rewrite (post_request _ _ _ _ _ _ _ (genPayload_token (thr_self thr) _ tok Htok)).
  cbv zeta. fold (plain_request (thr_self thr) (GET_VER (thr_self thr)) tok).
  cbn [daemon calls with_throttle]. rewrite Hd.
  destruct (isinstance e "ConnectionError"); now repeat split.
Qed.

Lemma refresh_transport_failure_witness :
  let api := Aria2cHomeassistant_init "localhost" DEFAULT_PORT (Some "secret") in
  let s := mk_sensor (PStr "Active") (Some api) "active" "Aria2c" (PStr "Tasks") (PInt 3) in
  let e := requests_ConnectionError "Connection refused" in
  let w := with_throttle (fresh_world (fun _ _ => ConnFail e))
             (Some (Throttle_wrap (timedelta_seconds 1) api)) in
  fst (refresh_aria2c_data s w) = Raise e
  /\ output (snd (refresh_aria2c_data s w)) = [].
Proof.
  intros api s e w.
  destruct (refresh_transport_failure s w _ "secret" e eq_refl eq_refl eq_refl eq_refl)
    as (Hr & Ho & _).
  split; [exact Hr | exact Ho].
Defined.

(** ** The kind of value a sensor holds *)

Lemma speed_state_float (raw st : pyval) :
  speed_state raw = Ret st -> exists f, st = PFloat f.
Proof.
  unfold speed_state. destruct (py_float raw); [| discriminate].
  cbn [obind]. intros [= <-]. eauto.
Qed.

(** X21. An update that returns normally leaves a number of the kind of the
    sensor in the state, whatever the daemon sent: a float for the two speed
    types, an integer for the two counting types; never the raw string and
    never [None]. *)
Theorem update_state_kind (self : Aria2cSensor) (w : world) client :
  aria2c_client self = Some client ->
  fst (update (self, w)) = Ret tt ->
  let self' := fst (snd (update (self, w))) in
  (type self = "download_speed" \/ type self = "upload_speed" ->
   exists f, _state self' = PFloat f)
  /\ (type self = "active" \/ type self = "unfinished_tasks" ->
      exists n, _state self' = PInt n).
Proof.
  intros Hc. cbv zeta.
  assert (forall (c : M world pyval) sw,
             fst ((raw <- in_world c ;; st <- pure (speed_state raw) ;; assign_state st) sw)
               = Ret tt ->
             exists f,
               _state (fst (snd ((raw <- in_world c ;; st <- pure (speed_state raw) ;;
                                  assign_state st) sw))) = PFloat f) as Hspeed.
  { intros c sw. unfold bind, in_world, pure, assign_state, modify.
    destruct (c (snd sw)) as [[raw | e] w1]; cbn [fst snd]; [| discriminate].
    destruct (speed_state raw) as [st | e] eqn:Hs; cbn [fst snd]; [| discriminate].
    intros _. exact (speed_state_float raw st Hs). }
  assert (forall (c : M world pyval) sw,
             fst ((raw <- in_world c ;; n <- pure (py_int raw) ;; assign_state (PInt n)) sw)
               = Ret tt ->
             exists n,
               _state (fst (snd ((raw <- in_world c ;; n <- pure (py_int raw) ;;
                                  assign_state (PInt n)) sw))) = PInt n) as Hcount.
  { intros c sw. unfold bind, in_world, pure, assign_state, modify.
    destruct (c (snd sw)) as [[raw | e] w1]; cbn [fst snd]; [| discriminate].
    destruct (py_int raw) as [n | e]; cbn [fst snd]; [| discriminate].
    intros _. now exists n. }
  assert (update (self, w) =
            match refresh_aria2c_data self w with
            | (Ret _, w1) => update_metric self (self, w1)
            | (Raise e, w1) => (Raise e, (self, w1))
            end) as ->.
  { unfold update, bind, gets, in_world. cbn [fst snd].
    now destruct (refresh_aria2c_data self w) as [[[] | e] w1]. }
  destruct (refresh_aria2c_data self w) as [[[] | e] w1]; [| discriminate].
  unfold update_metric. rewrite Hc. intros Hret. split.
  - intros [Ht | Ht]; rewrite Ht in Hret |- *;
      cbn [String.eqb Ascii.eqb Bool.eqb] in Hret |- *; exact (Hspeed _ _ Hret).
  - intros [Ht | Ht]; rewrite Ht in Hret |- *;
      cbn [String.eqb Ascii.eqb Bool.eqb] in Hret |- *; exact (Hcount _ _ Hret).
Qed.

Lemma update_state_kind_witness :
  let api := Aria2cHomeassistant_init "localhost" DEFAULT_PORT (Some "secret") in
  let s := mk_sensor (PStr "Active") (Some api) "active" "Aria2c" (PStr "Tasks") PNone in
  let res := [("numActive", PFloat (float_of_decimal false 25 (-1)))] in
  let w := fresh_world (fun _ _ => HttpReply (Some (PDict [("result", PDict res)]))) in
  exists n, _state (fst (snd (update (s, w)))) = PInt n.
Proof.
  intros api s res w.
  exact (proj2 (update_state_kind s w api eq_refl eq_refl) (or_introl eq_refl)).
Defined.
